(** * SSO token issuance and redemption of the management app

    A shallow embedding of [lib/sso-tokens.ts] (generateSSOToken,
    validateSSOToken, generateAccessURL, isTokenExpired,
    getTokenExpiration), of [getManagementAdmin] from
    [lib/supabase-management.ts] and of the two route handlers
    [POST /api/sso/generate] and [POST /api/sso/validate].

    Conventions.
    - [process.env] is a record of optional strings, read at call time.
    - [Date.now()] is an explicit argument [now], in milliseconds.
    - [console.log] / [console.error] append to an explicit log.
    - A JavaScript [throw] is the [Thrown] outcome; the [try]/[catch] that
      wraps a whole handler is [try_respond].
    - The two tables the handlers read are finite maps keyed by the columns
      the schema declares unique: [tenants.id] is the primary key and
      [tenant_users] carries [UNIQUE(tenant_id, user_id)].
    - The [jsonwebtoken] package is an external dependency: its
      serialisation and MAC are an interface ([Jws]); the
      claim handling of [jwt.sign] and [jwt.verify] is written out over it.
    - [jwt.decode] checks nothing and TypeScript's casts are erased: the
      two helpers that rely on it read [exp] as whatever JavaScript value
      the payload holds ([JwsExpView]). *)

From Stdlib Require Import ZArith Ascii String List Bool Lia.
From stdpp Require Import base option strings gmap.
Import ListNotations.

Local Open Scope Z_scope.

(** ** JavaScript values and effects *)

(** An [Error] object; only its message is ever inspected. *)
Record JsError := Error { message : string }.

Inductive Outcome (A : Type) : Type :=
| Returned (a : A)
| Thrown (e : JsError).
Arguments Returned {A} a.
Arguments Thrown {A} e.

Inductive LogLine :=
| console_log (msg : string)
| console_error (label : string) (detail : string).

(** A computation that logs and may throw. *)
Definition Eff (A : Type) : Type := (list LogLine * Outcome A)%type.

Definition ret {A} (a : A) : Eff A := ([], Returned a).
Definition throw {A} (e : JsError) : Eff A := ([], Thrown e).
Definition tell (l : LogLine) : Eff unit := ([l], Returned tt).
Definition lift {A} (o : Outcome A) : Eff A := ([], o).

Definition bind {A B} (m : Eff A) (k : A -> Eff B) : Eff B :=
  match m with
  | (l1, Returned a) => let '(l2, r) := k a in (l1 ++ l2, r)
  | (l1, Thrown e) => (l1, Thrown e)
  end.

Declare Scope eff_scope.
Delimit Scope eff_scope with eff.
Notation "x <- m ;; k" := (bind m (fun x => k))
  (at level 100, m at next level, right associativity) : eff_scope.
Notation "m ;;; k" := (bind m (fun _ => k))
  (at level 100, right associativity) : eff_scope.

(** JavaScript truthiness of a [string | undefined] value: [undefined] and
    the empty string are falsy. *)
Definition truthy (v : option string) : bool :=
  match v with
  | Some s => negb (String.eqb s "")
  | None => false
  end.

(** [a || b] on a [string | undefined] left operand. *)
Definition or_default (v : option string) (d : string) : string :=
  match v with
  | Some s => if String.eqb s "" then d else s
  | None => d
  end.

(** ** process.env *)

Record Env := {
  SSO_SECRET : option string;
  MANAGEMENT_SUPABASE_SERVICE_ROLE_KEY : option string;
  CLOUD_DEPLOYMENT_URL : option string;
  NEXT_PUBLIC_CLOUD_DEPLOYMENT_URL : option string
}.

(** ** Database types (lib/supabase-management.ts) *)

Inductive TenantStatus := active | suspended | cancelled.
Inductive TenantPlan := free | pro | enterprise.
Inductive TenantRole := owner | admin | editor.

Definition TenantStatus_eqb (a b : TenantStatus) : bool :=
  match a, b with
  | active, active | suspended, suspended | cancelled, cancelled => true
  | _, _ => false
  end.

(** The text a status interpolates to in a template literal. *)
Definition status_text (s : TenantStatus) : string :=
  match s with
  | active => "active"
  | suspended => "suspended"
  | cancelled => "cancelled"
  end.

(** A row of [tenants], without its primary key [id] (the key of the map). *)
Record Tenant := {
  name : string;
  subdomain : string;
  owner_id : string;
  status : TenantStatus;
  plan : TenantPlan
}.

(** A row of [tenant_users], without [(tenant_id, user_id)] (the key). *)
Record TenantUser := { role : TenantRole }.

Record ManagementDb := {
  tenants : gmap string Tenant;
  tenant_users : gmap (string * string) TenantUser
}.

(** ** The Supabase client *)

Record SupabaseClient := { service_key : string }.

(** [getManagementAdmin()] *)
Definition getManagementAdmin (env : Env) : Outcome SupabaseClient :=
  if negb (truthy (MANAGEMENT_SUPABASE_SERVICE_ROLE_KEY env)) then
    Thrown (Error "Management service role key not configured")
  else
    Returned {| service_key := or_default (MANAGEMENT_SUPABASE_SERVICE_ROLE_KEY env) "" |}.

Record PostgrestError := { code : string }.

(** The [{ data, error }] pair a query resolves to. *)
Record QueryResult (A : Type) := { data : option A; error : option PostgrestError }.
Arguments data {A} _.
Arguments error {A} _.

(** [.single()]: exactly one row, or an error and no data. *)
Definition single {A} (rows : list A) : QueryResult A :=
  match rows with
  | [r] => {| data := Some r; error := None |}
  | _ => {| data := None; error := Some {| code := "PGRST116" |} |}
  end.

(** The columns [id, status, plan] of a tenant. *)
Record TenantRow := { row_id : string; row_status : TenantStatus; row_plan : TenantPlan }.

(** [.from('tenants').select('id, status, plan').eq('id', id).single()] *)
Definition select_tenant (_ : SupabaseClient) (db : ManagementDb) (id : string)
  : QueryResult TenantRow :=
  single (match tenants db !! id with
          | Some t => [ {| row_id := id; row_status := status t; row_plan := plan t |} ]
          | None => []
          end).

(** [.from('tenant_users').select('role').eq('tenant_id', t).eq('user_id', u).single()] *)
Definition select_tenant_user (_ : SupabaseClient) (db : ManagementDb) (t u : string)
  : QueryResult TenantRole :=
  single (match tenant_users db !! (t, u) with
          | Some g => [ role g ]
          | None => []
          end).

(** ** SSO tokens (lib/sso-tokens.ts) *)

(** [Omit<SSOTokenPayload, 'iat' | 'exp'>]: what the caller supplies. *)
Record SSOTokenClaims := {
  tenant_id : string;
  user_id : string;
  email : string
}.

(** The payload object of a decoded token: the three custom claims, the
    optional [iat] and [exp] of [SSOTokenPayload] (seconds since the epoch),
    and the registered claims [jwt.verify] looks at. *)
Record SSOTokenPayload := {
  claims : SSOTokenClaims;
  iat : option Z;
  exp : option Z;
  nbf : option Z;
  iss : option string;
  aud : option string
}.

(** The serialisation layer of [jsonwebtoken]: compact JWS encoding with a
    MAC under a shared secret. [jws_decode] reads the payload without
    checking the MAC; it yields [null] on input that is not a token and may
    throw on a payload that is not JSON. A decoded payload is read at the
    type the source casts it to; what the code sees of a payload of another
    shape is the subject of [JwsExpView] below. [jws_verify] checks the MAC
    of a token
    under a secret. The interface asks only what any such codec provides:
    under a non-empty secret, a signed token is not the empty string,
    decodes to what was signed, and verifies under the secret that signed
    it. Nothing is assumed about tokens signed with another secret. *)
Class Jws := {
  jws_sign : SSOTokenPayload -> string -> string;
  jws_decode : string -> Outcome (option SSOTokenPayload);
  jws_verify : string -> string -> bool;
  jws_decode_sign : forall p k, k <> "" -> jws_decode (jws_sign p k) = Returned (Some p);
  jws_verify_sign : forall p k, k <> "" -> jws_verify (jws_sign p k) k = true;
  jws_sign_nonempty : forall p k, k <> "" -> jws_sign p k <> ""
}.

(** [decoded.exp] of a payload nobody has type-checked. [jwt.decode]
    verifies nothing and the cast [as SSOTokenPayload] is erased at run
    time, so the field holds whatever JSON value the sender put there, or is
    missing. Of a value that is not a number the code observes its
    truthiness ([!decoded.exp]) and the number it converts to in
    [decoded.exp * 1000], where [None] is [NaN]: the string ["never"] is
    [ExpOther true None], [null] is [ExpOther false (Some 0)], ["5"] is
    [ExpOther true (Some 5)]. Numbers are whole seconds, as in
    [SSOTokenPayload]. *)
Inductive JsExp :=
| ExpUndefined
| ExpNumber (n : Z)
| ExpOther (to_boolean : bool) (to_number : option Z).

(** The [exp] of a payload that has the declared type. *)
Definition exp_value (p : SSOTokenPayload) : JsExp :=
  match exp p with
  | Some e => ExpNumber e
  | None => ExpUndefined
  end.

(** A [Date]: its time value in milliseconds, or the Invalid Date. *)
Inductive JsDate :=
| Date (time : Z)
| InvalidDate.

(** [new Date(ms)] for a whole number of milliseconds: time values stop
    8.64e15 ms either side of the epoch. *)
Definition new_Date (ms : Z) : JsDate :=
  if Z.abs ms <=? 8640000000000000 then Date ms else InvalidDate.

(** The untyped reading of [jwt.decode]: for a token the decoder turns into
    a truthy value, what the value's [exp] holds; [None] when the decoder
    returns [null] or a falsy payload. [jws_decode] is the same decoder
    read at the declared type, so where it yields a payload the field is
    the typed one; on a payload of another shape only this reading says
    what the code sees. *)
Class JwsExpView (jws : Jws) := {
  jws_decode_exp : string -> Outcome (option JsExp);
  jws_decode_exp_typed : forall token p,
    jws_decode token = Returned (Some p) ->
    jws_decode_exp token = Returned (Some (exp_value p))
}.

(** The errors [jwt.verify] raises. [TokenExpiredError] and [NotBeforeError]
    are subclasses of [JsonWebTokenError]; an exception of the decoder is
    passed through unchanged. *)
Inductive VerifyError :=
| TokenExpiredError
| NotBeforeError
| JsonWebTokenError (msg : string)
| OtherError (e : JsError).

Definition instanceof_TokenExpiredError (e : VerifyError) : bool :=
  match e with TokenExpiredError => true | _ => false end.

Definition instanceof_JsonWebTokenError (e : VerifyError) : bool :=
  match e with OtherError _ => false | _ => true end.

Definition issuer : string := "ycode-cloud-management".
Definition audience : string := "ycode-cloud-deployment".

(** ['15m'] as the [ms] package reads it, in milliseconds. *)
Definition expiresIn_ms : Z := 15 * 60 * 1000.

(** [Math.floor(Date.now() / 1000)] *)
Definition clock_seconds (now : Z) : Z := now / 1000.

(** The claims object [jwt.sign] builds from the caller's payload and the
    options [{ expiresIn: '15m', issuer, audience }]. *)
Definition signed_payload (payload : SSOTokenClaims) (now : Z) : SSOTokenPayload :=
  let timestamp := clock_seconds now in
  {| claims := payload;
     iat := Some timestamp;
     exp := Some (timestamp + expiresIn_ms / 1000);
     nbf := None;
     iss := Some issuer;
     aud := Some audience |}.

Section SsoTokens.
Context {jws : Jws} {view : JwsExpView jws}.

(** [jwt.sign(payload, secret, { expiresIn: '15m', issuer, audience })]:
    the claims are completed, then serialised and signed. *)
Definition jwt_sign (payload : SSOTokenClaims) (secret : string) (now : Z) : string :=
  jws_sign (signed_payload payload now) secret.

(** [jwt.decode(token)] *)
Definition jwt_decode (token : string) : Outcome (option SSOTokenPayload) :=
  jws_decode token.

(** [jwt.decode(token)] as [isTokenExpired] and [getTokenExpiration] use
    it: they test the result and read its [exp], nothing else. *)
Definition jwt_decode_exp (token : string) : Outcome (option JsExp) :=
  jws_decode_exp token.

Definition option_string_eqb (o : option string) (s : string) : bool :=
  match o with Some x => String.eqb x s | None => false end.

(** [jwt.verify(token, secret, { issuer, audience })]: the token is decoded,
    its signature checked, then [nbf], [exp], audience and issuer, in this
    order. *)
Definition jwt_verify (token secret : string) (now : Z)
  : VerifyError + SSOTokenPayload :=
  let clockTimestamp := clock_seconds now in
  if String.eqb token "" then inl (JsonWebTokenError "jwt must be provided")
  else
    match jws_decode token with
    | Thrown e => inl (OtherError e)
    | Returned None => inl (JsonWebTokenError "jwt malformed")
    | Returned (Some payload) =>
        if negb (jws_verify token secret) then
          inl (JsonWebTokenError "invalid signature")
        else if match nbf payload with Some n => clockTimestamp <? n | None => false end then
          inl NotBeforeError
        else if match exp payload with Some e => e <=? clockTimestamp | None => false end then
          inl TokenExpiredError
        else if negb (option_string_eqb (aud payload) audience) then
          inl (JsonWebTokenError "jwt audience invalid")
        else if negb (option_string_eqb (iss payload) issuer) then
          inl (JsonWebTokenError "jwt issuer invalid")
        else inr payload
    end.

(** [generateSSOToken(payload)] *)
Definition generateSSOToken (env : Env) (now : Z) (payload : SSOTokenClaims)
  : Outcome string :=
  let secret := SSO_SECRET env in
  if negb (truthy secret) then Thrown (Error "SSO_SECRET not configured")
  else Returned (jwt_sign payload (or_default secret "") now).

(** [validateSSOToken(token)] *)
Definition validateSSOToken (env : Env) (now : Z) (token : string)
  : Eff (option SSOTokenPayload) :=
  let secret := SSO_SECRET env in
  if negb (truthy secret) then throw (Error "SSO_SECRET not configured")
  else
    match jwt_verify token (or_default secret "") now with
    | inr payload => ret (Some payload)
    | inl error =>
        ((if instanceof_TokenExpiredError error then tell (console_log "SSO token expired")
          else if instanceof_JsonWebTokenError error then tell (console_log "Invalid SSO token")
          else ret tt) ;;;
         ret None)%eff
    end.

(** [generateAccessURL(tenantId, userId, email)] *)
Definition generateAccessURL (env : Env) (now : Z) (tenantId userId email_ : string)
  : Outcome string :=
  match generateSSOToken env now
          {| tenant_id := tenantId; user_id := userId; email := email_ |} with
  | Thrown e => Thrown e
  | Returned token =>
      let deploymentUrl :=
        or_default (NEXT_PUBLIC_CLOUD_DEPLOYMENT_URL env) "https://cloud.ycode.app" in
      Returned (deploymentUrl +:+ "?token=" +:+ token)
  end.

(** [!decoded.exp]: a missing field, [0], and the falsy values that are
    not numbers. *)
Definition exp_falsy (x : JsExp) : bool :=
  match x with
  | ExpUndefined => true
  | ExpNumber n => n =? 0
  | ExpOther to_boolean _ => negb to_boolean
  end.

(** [decoded.exp * 1000]; [None] is [NaN]. *)
Definition exp_times_1000 (x : JsExp) : option Z :=
  match x with
  | ExpUndefined => None
  | ExpNumber n => Some (n * 1000)
  | ExpOther _ to_number => (fun n => n * 1000) <$> to_number
  end.

(** [isTokenExpired(token)]. [Date.now() >= NaN] is [false]. *)
Definition isTokenExpired (now : Z) (token : string) : bool :=
  match jwt_decode_exp token with
  | Thrown _ => true
  | Returned None => true
  | Returned (Some decoded_exp) =>
      if exp_falsy decoded_exp then true
      else
        match exp_times_1000 decoded_exp with
        | Some ms => ms <=? now
        | None => false
        end
  end.

(** [getTokenExpiration(token)]. [new Date(NaN)] is an object, the Invalid
    Date, not [null]. *)
Definition getTokenExpiration (token : string) : option JsDate :=
  match jwt_decode_exp token with
  | Thrown _ => None
  | Returned None => None
  | Returned (Some decoded_exp) =>
      if exp_falsy decoded_exp then None
      else
        match exp_times_1000 decoded_exp with
        | Some ms => Some (new_Date ms)
        | None => Some InvalidDate
        end
  end.

End SsoTokens.

(** ** HTTP requests and responses *)

(** The parsed JSON body; the two handlers read one field each. *)
Record JsonBody := {
  body_token : option string;
  body_tenant_id : option string
}.

(** A [NextRequest]: the [authorization] header and what [request.json()]
    resolves to (it rejects on a body that is not JSON). *)
Record NextRequest := {
  authorization : option string;
  json : Outcome JsonBody
}.

Inductive ResponseBody :=
| ErrorBody (error_ : string)
| ErrorDetailsBody (error_ details : string)
| ValidatedBody (tenant_id_ user_id_ email_ : string) (role_ : TenantRole) (plan_ : TenantPlan)
| TokenBody (token access_url : string).

Record Response := { http_status : Z; body : ResponseBody }.

(** [NextResponse.json(body, { status })]; the status defaults to 200. *)
Definition NextResponse_json (b : ResponseBody) (st : Z) : Response :=
  {| http_status := st; body := b |}.

(** The outermost [try { ... } catch (error) { ... }] of a handler, whose
    [catch] block always responds. *)
Definition try_respond (m : Eff Response) (handler : JsError -> list LogLine * Response)
  : list LogLine * Response :=
  match m with
  | (l1, Returned r) => (l1, r)
  | (l1, Thrown e) => let '(l2, r) := handler e in (l1 ++ l2, r)
  end.

(** ** String helpers of the generate handler *)

Fixpoint string_drop (n : nat) (s : string) : string :=
  match n, s with
  | O, _ => s
  | S n', String _ s' => string_drop n' s'
  | S _, EmptyString => EmptyString
  end.

(** [s.replace(pat, rep)] with a string pattern: the first occurrence only. *)
Fixpoint replace_first (pat rep s : string) : string :=
  if String.prefix pat s then rep +:+ string_drop (String.length pat) s
  else match s with
       | EmptyString => EmptyString
       | String c s' => String c (replace_first pat rep s')
       end.

(** [s.split('.')] *)
Fixpoint split_dot (s : string) : list string :=
  match s with
  | EmptyString => [EmptyString]
  | String c s' =>
      let parts := split_dot s' in
      if Ascii.eqb c "."%char then EmptyString :: parts
      else match parts with
           | p :: ps => String c p :: ps
           | [] => [String c EmptyString]
           end
  end.

(** The claims the generate handler reads off the primary-auth token. *)
Record AuthPayload := {
  sub : option string;
  auth_email : option string
}.

Definition placeholder_email : string := "user@ycode.app".

(** ** Route handlers *)

Section Routes.
Context {jws : Jws}.

(** [JSON.parse(Buffer.from(segment, 'base64').toString())], read at [sub]
    and [email]; it throws on a segment that is not JSON (or is [null]). *)
Variable parse_base64_json : string -> Outcome AuthPayload.

(** [POST /api/sso/validate] *)
Definition POST_validate (env : Env) (db : ManagementDb) (now : Z) (request : NextRequest)
  : list LogLine * Response :=
  try_respond
    (body <- lift (json request) ;;
     let token := body_token body in
     if negb (truthy token) then
       ret (NextResponse_json (ErrorBody "Token required") 400)
     else
       payload <- validateSSOToken env now (or_default token "") ;;
       match payload with
       | None => ret (NextResponse_json (ErrorBody "Invalid or expired token") 401)
       | Some payload =>
           managementAdmin <- lift (getManagementAdmin env) ;;
           let q := select_tenant managementAdmin db (tenant_id (claims payload)) in
           match error q, data q with
           | None, Some tenant =>
               if negb (TenantStatus_eqb (row_status tenant) active) then
                 ret (NextResponse_json
                        (ErrorBody ("Tenant is " +:+ status_text (row_status tenant))) 403)
               else
                 let q' := select_tenant_user managementAdmin db
                             (tenant_id (claims payload)) (user_id (claims payload)) in
                 match error q', data q' with
                 | None, Some tenantUser =>
                     ret (NextResponse_json
                            (ValidatedBody (tenant_id (claims payload))
                                           (user_id (claims payload))
                                           (email (claims payload))
                                           tenantUser
                                           (row_plan tenant)) 200)
                 | _, _ =>
                     ret (NextResponse_json
                            (ErrorBody "User does not have access to this tenant") 403)
                 end
           | _, _ => ret (NextResponse_json (ErrorBody "Tenant not found") 404)
           end
       end)%eff
    (fun error =>
       ([console_error "SSO validation error:" (message error)],
        NextResponse_json (ErrorBody "Validation failed") 500)).

(** [POST /api/sso/generate] *)
Definition POST_generate (env : Env) (db : ManagementDb) (now : Z) (request : NextRequest)
  : list LogLine * Response :=
  try_respond
    (let authHeader := authorization request in
     if negb (truthy authHeader) then
       ret (NextResponse_json (ErrorBody "Unauthorized") 401)
     else
       let token := replace_first "Bearer " "" (or_default authHeader "") in
       let base64Payload := nth_error (split_dot token) 1 in
       if negb (truthy base64Payload) then
         ret (NextResponse_json (ErrorBody "Invalid token format") 401)
       else
         payload <- lift (parse_base64_json (or_default base64Payload "")) ;;
         let userId := sub payload in
         let userEmail := auth_email payload in
         if negb (truthy userId) then
           ret (NextResponse_json (ErrorBody "Invalid token") 401)
         else
           body <- lift (json request) ;;
           let tenant_id := body_tenant_id body in
           if negb (truthy tenant_id) then
             ret (NextResponse_json (ErrorBody "tenant_id required") 400)
           else
             managementAdmin <- lift (getManagementAdmin env) ;;
             let q := select_tenant_user managementAdmin db
                        (or_default tenant_id "") (or_default userId "") in
             match error q, data q with
             | None, Some tenantUser =>
                 ssoToken <- lift (generateSSOToken env now
                                     {| tenant_id := or_default tenant_id "";
                                        user_id := or_default userId "";
                                        email := or_default userEmail placeholder_email |}) ;;
                 let deploymentUrl :=
                   or_default (CLOUD_DEPLOYMENT_URL env) "http://localhost:3000" in
                 ret (NextResponse_json
                        (TokenBody ssoToken (deploymentUrl +:+ "?token=" +:+ ssoToken)) 200)
             | accessError, _ =>
                 tell (console_error "Access check failed:"
                         (match accessError with Some e => code e | None => "null" end)) ;;;
                 ret (NextResponse_json (ErrorBody "Access denied") 403)
             end)%eff
    (fun error =>
       ([console_error "SSO generation error:" (message error)],
        NextResponse_json (ErrorDetailsBody "Failed to generate token" (message error)) 500)).

End Routes.

(** ** Changes other subsystems make to the store

    Billing sets a tenant's status; removing a member deletes a grant. *)

Definition set_status (t : Tenant) (s : TenantStatus) : Tenant :=
  {| name := name t; subdomain := subdomain t; owner_id := owner_id t;
     status := s; plan := plan t |}.

Definition update_tenant_status (db : ManagementDb) (id : string) (s : TenantStatus)
  : ManagementDb :=
  {| tenants := alter (fun t => set_status t s) id (tenants db);
     tenant_users := tenant_users db |}.

Definition delete_tenant_user (db : ManagementDb) (t u : string) : ManagementDb :=
  {| tenants := tenants db;
     tenant_users := delete (t, u) (tenant_users db) |}.

Definition with_tenants (db : ManagementDb) (m : gmap string Tenant) : ManagementDb :=
  {| tenants := m; tenant_users := tenant_users db |}.

Definition with_tenant_users (db : ManagementDb) (m : gmap (string * string) TenantUser)
  : ManagementDb :=
  {| tenants := tenants db; tenant_users := m |}.

(** A request whose JSON body is [{ "token": token }]. *)
Definition token_request (token : string) : NextRequest :=
  {| authorization := None;
     json := Returned {| body_token := Some token; body_tenant_id := None |} |}.

(** ** A reference implementation of the [Jws] interface

    A field-by-field serialisation in which the key itself stands for the
    MAC (a symbolic signature): enough to run the handlers on concrete
    tokens. A string that starts with ["!"] plays the token whose payload is
    not JSON, on which the decoder throws. *)

Module ReferenceJws.

Fixpoint enc_string (s rest : string) : string :=
  match s with
  | EmptyString => String "."%char rest
  | String c s' => String "+"%char (String c (enc_string s' rest))
  end.

Fixpoint dec_string (t : string) : option (string * string) :=
  match t with
  | String c r =>
      if Ascii.eqb c "."%char then Some (EmptyString, r)
      else if Ascii.eqb c "+"%char then
        match r with
        | String d r' =>
            match dec_string r' with
            | Some (s, r'') => Some (String d s, r'')
            | None => None
            end
        | EmptyString => None
        end
      else None
  | EmptyString => None
  end.

Fixpoint enc_pos (p : positive) (rest : string) : string :=
  match p with
  | xH => String "h"%char rest
  | xO p' => String "o"%char (enc_pos p' rest)
  | xI p' => String "i"%char (enc_pos p' rest)
  end.

Fixpoint dec_pos (t : string) : option (positive * string) :=
  match t with
  | String c r =>
      if Ascii.eqb c "h"%char then Some (xH, r)
      else if Ascii.eqb c "o"%char then
        match dec_pos r with Some (p, r') => Some (xO p, r') | None => None end
      else if Ascii.eqb c "i"%char then
        match dec_pos r with Some (p, r') => Some (xI p, r') | None => None end
      else None
  | EmptyString => None
  end.

Definition enc_Z (z : Z) (rest : string) : string :=
  match z with
  | Z0 => String "z"%char rest
  | Zpos p => String "p"%char (enc_pos p rest)
  | Zneg p => String "n"%char (enc_pos p rest)
  end.

Definition dec_Z (t : string) : option (Z * string) :=
  match t with
  | String c r =>
      if Ascii.eqb c "z"%char then Some (Z0, r)
      else if Ascii.eqb c "p"%char then
        match dec_pos r with Some (p, r') => Some (Zpos p, r') | None => None end
      else if Ascii.eqb c "n"%char then
        match dec_pos r with Some (p, r') => Some (Zneg p, r') | None => None end
      else None
  | EmptyString => None
  end.

Definition enc_opt {A} (enc : A -> string -> string) (o : option A) (rest : string)
  : string :=
  match o with
  | None => String "N"%char rest
  | Some a => String "S"%char (enc a rest)
  end.

Definition dec_opt {A} (dec : string -> option (A * string)) (t : string)
  : option (option A * string) :=
  match t with
  | String c r =>
      if Ascii.eqb c "N"%char then Some (None, r)
      else if Ascii.eqb c "S"%char then
        match dec r with Some (a, r') => Some (Some a, r') | None => None end
      else None
  | EmptyString => None
  end.

(** The serialised token: a ["J"], the eight claims, then the signature. *)
Definition serialise (p : SSOTokenPayload) (signature : string) : string :=
  String "J"%char
    (enc_string (tenant_id (claims p))
    (enc_string (user_id (claims p))
    (enc_string (email (claims p))
    (enc_opt enc_Z (iat p)
    (enc_opt enc_Z (exp p)
    (enc_opt enc_Z (nbf p)
    (enc_opt enc_string (iss p)
    (enc_opt enc_string (aud p) signature)))))))).

Definition parse (t : string) : option (SSOTokenPayload * string) :=
  match t with
  | String c r0 =>
      if Ascii.eqb c "J"%char then
        '(t_id, r1) ← dec_string r0;
        '(u_id, r2) ← dec_string r1;
        '(mail, r3) ← dec_string r2;
        '(iat_, r4) ← dec_opt dec_Z r3;
        '(exp_, r5) ← dec_opt dec_Z r4;
        '(nbf_, r6) ← dec_opt dec_Z r5;
        '(iss_, r7) ← dec_opt dec_string r6;
        '(aud_, r8) ← dec_opt dec_string r7;
        Some ({| claims := {| tenant_id := t_id; user_id := u_id; email := mail |};
                 iat := iat_; exp := exp_; nbf := nbf_; iss := iss_; aud := aud_ |}, r8)
      else None
  | EmptyString => None
  end.

Definition sign (p : SSOTokenPayload) (key : string) : string := serialise p key.

Definition decode (t : string) : Outcome (option SSOTokenPayload) :=
  if String.prefix "!" t then Thrown (Error "Unexpected token in JSON")
  else Returned (fst <$> parse t).

Definition verify (t key : string) : bool :=
  match parse t with
  | Some (_, signature) => String.eqb signature key
  | None => false
  end.

(** The untyped reading. A string that starts with ["?"] plays the token
    whose payload is [{ "exp": "never" }]: an object, whose [exp] is a
    non-empty string that converts to [NaN]. *)
Definition decode_exp (t : string) : Outcome (option JsExp) :=
  if String.prefix "!" t then Thrown (Error "Unexpected token in JSON")
  else if String.prefix "?" t then Returned (Some (ExpOther true None))
  else Returned (exp_value ∘ fst <$> parse t).

Lemma dec_enc_string s rest : dec_string (enc_string s rest) = Some (s, rest).
Proof.
  induction s as [|c s IH]; cbn [enc_string dec_string].
  - reflexivity.
  - rewrite IH. reflexivity.
Qed.

Lemma dec_enc_pos p rest : dec_pos (enc_pos p rest) = Some (p, rest).
Proof.
  induction p as [p IH|p IH|]; cbn [enc_pos dec_pos]; cbn;
    rewrite ?IH; reflexivity.
Qed.

Lemma dec_enc_Z z rest : dec_Z (enc_Z z rest) = Some (z, rest).
Proof.
  destruct z; cbn; rewrite ?dec_enc_pos; reflexivity.
Qed.

Lemma dec_enc_opt {A} (enc : A -> string -> string) dec
    (Hinv : forall a rest, dec (enc a rest) = Some (a, rest)) o rest :
  dec_opt dec (enc_opt enc o rest) = Some (o, rest).
Proof.
  destruct o; cbn; rewrite ?Hinv; reflexivity.
Qed.

Lemma parse_serialise p signature : parse (serialise p signature) = Some (p, signature).
Proof.
  destruct p as [[t u m] i e n s a]. unfold serialise, parse.
  cbn [claims tenant_id user_id email iat exp nbf iss aud].
  change (Ascii.eqb "J"%char "J"%char) with true. cbv iota.
  repeat (rewrite ?dec_enc_string, ?(dec_enc_opt enc_Z dec_Z dec_enc_Z),
            ?(dec_enc_opt enc_string dec_string dec_enc_string);
          cbn [mbind option_bind]).
  reflexivity.
Qed.

#[export] Instance reference : Jws.
Proof.
  refine {| jws_sign := sign; jws_decode := decode; jws_verify := verify |}.
  - intros p k _. unfold decode, sign.
    change (String.prefix "!" (serialise p k)) with false.
    rewrite parse_serialise. reflexivity.
  - intros p k _. unfold verify, sign. rewrite parse_serialise. apply String.eqb_refl.
  - intros p k _. unfold sign, serialise. discriminate.
Defined.

Lemma parse_Some_prefix t r c :
  parse t = Some r -> Ascii.eqb c "J"%char = false ->
  String.prefix (String c EmptyString) t = false.
Proof.
  destruct t as [|d t]; [discriminate|]. cbn [parse].
  destruct (Ascii.eqb d "J"%char) eqn:Hd; [|discriminate].
  apply Ascii.eqb_eq in Hd. subst d. intros _ Hc. cbn.
  destruct (ascii_dec c "J"%char) as [->|Hne].
  - rewrite Ascii.eqb_refl in Hc. discriminate.
  - reflexivity.
Qed.

#[export] Instance reference_view : JwsExpView reference.
Proof.
  refine {| jws_decode_exp := decode_exp |}.
  intros t p. cbn [jws_decode reference]. unfold decode, decode_exp.
  destruct (String.prefix "!" t); [discriminate|].
  destruct (parse t) as [[q r]|] eqn:Hparse; [|discriminate].
  rewrite (parse_Some_prefix t (q, r) "?"%char Hparse eq_refl).
  cbn. intros [= ->]. reflexivity.
Defined.

End ReferenceJws.

(** ** A concrete deployment

    One tenant, one member, a configured environment and tokens minted with
    the reference codec, on which the handlers can be run. *)

Module Scenario.

Definition env0 : Env :=
  {| SSO_SECRET := Some "s3cret";
     MANAGEMENT_SUPABASE_SERVICE_ROLE_KEY := Some "service-role-key";
     CLOUD_DEPLOYMENT_URL := None;
     NEXT_PUBLIC_CLOUD_DEPLOYMENT_URL := None |}.

(** The same deployment without [SSO_SECRET]. *)
Definition env_unconfigured : Env :=
  {| SSO_SECRET := None;
     MANAGEMENT_SUPABASE_SERVICE_ROLE_KEY := Some "service-role-key";
     CLOUD_DEPLOYMENT_URL := None;
     NEXT_PUBLIC_CLOUD_DEPLOYMENT_URL := None |}.

Definition tenant0 : Tenant :=
  {| name := "Acme"; subdomain := "acme"; owner_id := "u1";
     status := active; plan := pro |}.

Definition grant0 : TenantUser := {| role := owner |}.

Definition db0 : ManagementDb :=
  {| tenants := {[ "t1" := tenant0 ]};
     tenant_users := {[ ("t1", "u1") := grant0 ]} |}.

Definition claims0 : SSOTokenClaims :=
  {| tenant_id := "t1"; user_id := "u1"; email := "a@b.com" |}.

(** Mint time, and redemption five and sixteen minutes later. *)
Definition T0 : Z := 1700000000000.
Definition soon : Z := T0 + 5 * 60 * 1000.
Definition late : Z := T0 + 16 * 60 * 1000.

(** A token of the deployment, and one signed with another secret. *)
Definition token0 : string := @jwt_sign ReferenceJws.reference claims0 "s3cret" T0.
Definition forged : string := @jwt_sign ReferenceJws.reference claims0 "other-secret" T0.

(** A validly signed claim set that carries no [exp]. *)
Definition undated : string :=
  ReferenceJws.sign {| claims := claims0; iat := None; exp := None; nbf := None;
                       iss := Some issuer; aud := Some audience |} "s3cret".

(** A token whose payload is [{ "exp": "never" }]. *)
Definition never : string := "?never".

Definition body0 : JsonBody := {| body_token := Some token0; body_tenant_id := None |}.

(** The primary-auth token of user [u1], which has no email claim. *)
Definition principal0 : AuthPayload := {| sub := Some "u1"; auth_email := None |}.

Definition parse0 (segment : string) : Outcome AuthPayload :=
  if String.eqb segment "payload" then Returned principal0
  else Thrown (Error "Unexpected end of JSON input").

Definition generate_body0 : JsonBody :=
  {| body_token := None; body_tenant_id := Some "t1" |}.

Definition generate_request0 : NextRequest :=
  {| authorization := Some "Bearer header.payload.signature";
     json := Returned generate_body0 |}.

(** The token the generate handler mints for [generate_request0]. *)
Definition token1 : string :=
  @jwt_sign ReferenceJws.reference
    {| tenant_id := "t1"; user_id := "u1"; email := "user@ycode.app" |} "s3cret" T0.

End Scenario.

(** ** Handlers beyond the token exchange

    The tenant lookup of the cloud deployment
    ([GET /api/tenants/by-subdomain]), project creation
    ([POST /api/projects/create]) and the usage summary of
    [lib/supabase-tenants.ts]. *)

#[global] Instance TenantStatus_eq_dec : EqDecision TenantStatus.
Proof. solve_decision. Defined.

(** A handler's outermost [try]/[catch], for any response type. *)
Definition try_respond_as {R : Type} (m : Eff R) (handler : JsError -> list LogLine * R)
  : list LogLine * R :=
  match m with
  | (l1, Returned r) => (l1, r)
  | (l1, Thrown e) => let '(l2, r) := handler e in (l1 ++ l2, r)
  end.

(** *** GET /api/tenants/by-subdomain *)

(** What the handler reads off the request: the [x-api-key] header and the
    [subdomain] search parameter. *)
Record LookupRequest := {
  x_api_key : option string;
  search_subdomain : option string
}.

Inductive LookupBody :=
| LookupError (error_ : string)
| LookupTenant (tenant_id_ : string).

Record LookupResponse := { lookup_status : Z; lookup_body : LookupBody }.

(** The columns [id, status] of a tenant. *)
Record TenantIdStatus := { sel_id : string; sel_status : TenantStatus }.

(** [.from('tenants').select('id, status').eq('subdomain', s)
     .eq('status', 'active').single()] *)
Definition select_active_tenant_by_subdomain
    (_ : SupabaseClient) (db : ManagementDb) (s : string) : QueryResult TenantIdStatus :=
  single ((fun it : string * Tenant => {| sel_id := it.1; sel_status := status it.2 |})
            <$> filter (fun it : string * Tenant => subdomain it.2 = s /\ status it.2 = active)
                  (map_to_list (tenants db))).

(** The handler; [INTERNAL_API_KEY] is [process.env.INTERNAL_API_KEY]. *)
Definition GET_by_subdomain (env : Env) (INTERNAL_API_KEY : option string)
    (db : ManagementDb) (request : LookupRequest) : list LogLine * LookupResponse :=
  try_respond_as
    (let apiKey := x_api_key request in
     let expectedKey := INTERNAL_API_KEY in
     if truthy expectedKey && negb (option_string_eqb apiKey (or_default expectedKey "")) then
       ret {| lookup_status := 401; lookup_body := LookupError "Unauthorized" |}
     else
       let subdomain := search_subdomain request in
       if negb (truthy subdomain) then
         ret {| lookup_status := 400;
                lookup_body := LookupError "Subdomain parameter required" |}
       else
         managementAdmin <- lift (getManagementAdmin env) ;;
         let q := select_active_tenant_by_subdomain managementAdmin db
                    (or_default subdomain "") in
         match error q, data q with
         | None, Some tenant =>
             ret {| lookup_status := 200; lookup_body := LookupTenant (sel_id tenant) |}
         | _, _ =>
             ret {| lookup_status := 404; lookup_body := LookupError "Tenant not found" |}
         end)%eff
    (fun error =>
       ([console_error "Subdomain lookup error:" (message error)],
        {| lookup_status := 500; lookup_body := LookupError "Internal server error" |})).

(** *** Subdomain generation of POST /api/projects/create

    Strings are sequences of one-byte characters. [toLowerCase] below
    lower-cases the letters [A] to [Z] and leaves every other byte as it
    is: that is JavaScript's [toLowerCase()] on ASCII strings, and on those
    only (JavaScript also lower-cases letters outside ASCII, some of them to
    ASCII letters: the Kelvin sign U+212A becomes ["k"] and is kept, where
    here its bytes become dashes). What is stated below about the subdomain
    generated from a name is stated for ASCII names; the regular
    expressions see only ASCII classes and are the handler's on any
    input. *)

Definition is_upper (c : ascii) : bool :=
  (65 <=? nat_of_ascii c)%nat && (nat_of_ascii c <=? 90)%nat.

Definition is_lower_or_digit (c : ascii) : bool :=
  ((97 <=? nat_of_ascii c)%nat && (nat_of_ascii c <=? 122)%nat)
  || ((48 <=? nat_of_ascii c)%nat && (nat_of_ascii c <=? 57)%nat).

Definition dash : ascii := "-"%char.

(** [name.toLowerCase()], for an ASCII [name] *)
Fixpoint toLowerCase (s : string) : string :=
  match s with
  | EmptyString => EmptyString
  | String c s' =>
      String (if is_upper c then ascii_of_nat (nat_of_ascii c + 32) else c) (toLowerCase s')
  end.

(** [.replace(/[^a-z0-9]/g, '-')] *)
Fixpoint replace_non_alnum (s : string) : string :=
  match s with
  | EmptyString => EmptyString
  | String c s' => String (if is_lower_or_digit c then c else dash) (replace_non_alnum s')
  end.

(** [.replace(/-+/g, '-')] *)
Fixpoint collapse_dashes (s : string) : string :=
  match s with
  | EmptyString => EmptyString
  | String c s' =>
      if Ascii.eqb c dash then
        match s' with
        | String d _ => if Ascii.eqb d dash then collapse_dashes s'
                        else String dash (collapse_dashes s')
        | EmptyString => String dash EmptyString
        end
      else String c (collapse_dashes s')
  end.

(** [.replace(/^-|-$/g, '')]: one dash off the front, then one off the end. *)
Definition strip_leading_dash (s : string) : string :=
  match s with
  | String c s' => if Ascii.eqb c dash then s' else s
  | EmptyString => EmptyString
  end.

Fixpoint strip_trailing_dash (s : string) : string :=
  match s with
  | EmptyString => EmptyString
  | String c EmptyString => if Ascii.eqb c dash then EmptyString else s
  | String c s' => String c (strip_trailing_dash s')
  end.

(** The subdomain the handler derives from an ASCII project name. *)
Definition generate_subdomain (name : string) : string :=
  strip_trailing_dash
    (strip_leading_dash (collapse_dashes (replace_non_alnum (toLowerCase name)))).

(** A well-formed subdomain label: lower-case letters, digits and single
    dashes, with no dash at either end. *)
Fixpoint label_chars (s : string) : bool :=
  match s with
  | EmptyString => true
  | String c s' => (is_lower_or_digit c || Ascii.eqb c dash) && label_chars s'
  end.

Fixpoint no_double_dash (s : string) : bool :=
  match s with
  | String c ((String d _) as s') =>
      negb (Ascii.eqb c dash && Ascii.eqb d dash) && no_double_dash s'
  | _ => true
  end.

Definition starts_with_dash (s : string) : bool :=
  match s with String c _ => Ascii.eqb c dash | EmptyString => false end.

Fixpoint ends_with_dash (s : string) : bool :=
  match s with
  | EmptyString => false
  | String c EmptyString => Ascii.eqb c dash
  | String _ s' => ends_with_dash s'
  end.

Definition subdomain_label (s : string) : bool :=
  label_chars s && no_double_dash s && negb (starts_with_dash s) && negb (ends_with_dash s).

Fixpoint has_alnum (s : string) : bool :=
  match s with
  | EmptyString => false
  | String c s' => is_lower_or_digit c || is_upper c || has_alnum s'
  end.

Fixpoint all_dashes (s : string) : bool :=
  match s with
  | EmptyString => true
  | String c s' => Ascii.eqb c dash && all_dashes s'
  end.

Fixpoint is_ascii (s : string) : bool :=
  match s with
  | EmptyString => true
  | String c s' => (nat_of_ascii c <? 128)%nat && is_ascii s'
  end.

(** *** POST /api/projects/create *)

(** The schema's [subdomain TEXT UNIQUE NOT NULL]. *)
Definition subdomains_unique (db : ManagementDb) : Prop :=
  forall i j ti tj,
    tenants db !! i = Some ti -> tenants db !! j = Some tj ->
    subdomain ti = subdomain tj -> i = j.

(** The schema's [tenant_id UUID REFERENCES tenants(id)]. *)
Definition grants_reference_tenants (db : ManagementDb) : Prop :=
  forall t u g, tenant_users db !! (t, u) = Some g -> is_Some (tenants db !! t).

Record CreateBody := {
  body_name : option string;
  body_subdomain : option string
}.

Record CreateRequest := {
  create_authorization : option string;
  create_json : Outcome CreateBody
}.

(** [{ error }] or [{ tenant, access_url }]; the tenant is the inserted row,
    its [id] beside its other columns. *)
Inductive CreateBodyOut :=
| CreateError (error_ : string)
| CreateCreated (id_ : string) (tenant : Tenant) (access_url : string).

Record CreateResponse := { create_status : Z; create_body : CreateBodyOut }.

(** [.from('tenants').select('id').eq('subdomain', s).single()] *)
Definition select_tenant_by_subdomain
    (_ : SupabaseClient) (db : ManagementDb) (s : string) : QueryResult string :=
  single (fst <$> filter (fun it : string * Tenant => subdomain it.2 = s)
                    (map_to_list (tenants db))).

(** [.from('tenants').insert(row).select().single()], where the database
    draws the primary key [id] ([gen_random_uuid()]). The insert fails on a
    duplicate key or a duplicate subdomain. *)
Definition insert_tenant
    (_ : SupabaseClient) (db : ManagementDb) (id : string) (row : Tenant)
  : QueryResult (string * Tenant) * ManagementDb :=
  match tenants db !! id,
        filter (fun it : string * Tenant => subdomain it.2 = subdomain row)
          (map_to_list (tenants db)) with
  | None, [] =>
      ({| data := Some (id, row); error := None |},
       {| tenants := <[id := row]> (tenants db); tenant_users := tenant_users db |})
  | _, _ => ({| data := None; error := Some {| code := "23505" |} |}, db)
  end.

(** [.from('tenant_users').insert({ tenant_id, user_id, role })]. The insert
    fails when the tenant does not exist or the pair is already there. *)
Definition insert_tenant_user
    (_ : SupabaseClient) (db : ManagementDb) (t u : string) (r : TenantRole)
  : option PostgrestError * ManagementDb :=
  match tenants db !! t, tenant_users db !! (t, u) with
  | Some _, None =>
      (None,
       {| tenants := tenants db;
          tenant_users := <[(t, u) := {| role := r |}]> (tenant_users db) |})
  | None, _ => (Some {| code := "23503" |}, db)
  | Some _, Some _ => (Some {| code := "23505" |}, db)
  end.

(** [.from('tenants').delete().eq('id', id)]; the grants of a deleted tenant
    go with it ([ON DELETE CASCADE]). *)
Definition delete_tenant (_ : SupabaseClient) (db : ManagementDb) (id : string)
  : ManagementDb :=
  match tenants db !! id with
  | None => db
  | Some _ =>
      {| tenants := delete id (tenants db);
         tenant_users :=
           filter (fun kv : string * string * TenantUser => kv.1.1 <> id) (tenant_users db) |}
  end.

Definition respond_create (b : CreateBodyOut) (st : Z) : CreateResponse :=
  {| create_status := st; create_body := b |}.

Section CreateProject.
Context {jws : Jws}.

(** As for the generate handler. *)
Variable parse_base64_json : string -> Outcome AuthPayload.

(** [initializeTenantData(tenantId)] of [lib/supabase-tenants.ts]: it works
    on the tenants' own database, logs, and throws when an insert there
    fails. *)
Variable initializeTenantData : string -> Eff unit.

(** The handler, threading the management store. [gen_random_uuid] is the
    key the database draws should the handler insert a tenant. The outer
    [catch] answers every throw the same way, from the store as it is. *)
Definition POST_create (env : Env) (gen_random_uuid : string) (db : ManagementDb) (now : Z)
    (request : CreateRequest) : list LogLine * CreateResponse * ManagementDb :=
  let caught (l : list LogLine) (error : JsError) (d : ManagementDb) :=
    (l ++ [console_error "Project creation error:" (message error)],
     respond_create (CreateError "Internal server error") 500, d) in
  let authHeader := create_authorization request in
  if negb (truthy authHeader) then
    ([], respond_create (CreateError "Unauthorized") 401, db)
  else
    let token := replace_first "Bearer " "" (or_default authHeader "") in
    let base64Payload := nth_error (split_dot token) 1 in
    if negb (truthy base64Payload) then
      ([], respond_create (CreateError "Invalid token format") 401, db)
    else
      match parse_base64_json (or_default base64Payload "") with
      | Thrown e => caught [] e db
      | Returned payload =>
          let userId := sub payload in
          let userEmail := or_default (auth_email payload) placeholder_email in
          if negb (truthy userId) then
            ([], respond_create (CreateError "Invalid token") 401, db)
          else
            match getManagementAdmin env with
            | Thrown e => caught [] e db
            | Returned managementAdmin =>
                match create_json request with
                | Thrown e => caught [] e db
                | Returned body =>
                    let name_ := body_name body in
                    let requestedSubdomain := body_subdomain body in
                    if negb (truthy name_) then
                      ([], respond_create (CreateError "Project name is required") 400, db)
                    else
                      let subdomain :=
                        or_default requestedSubdomain
                          (generate_subdomain (or_default name_ "")) in
                      match data (select_tenant_by_subdomain managementAdmin db subdomain) with
                      | Some existingTenant =>
                          ([], respond_create (CreateError "Subdomain already taken") 409, db)
                      | None =>
                          let '(inserted, db1) :=
                            insert_tenant managementAdmin db gen_random_uuid
                              {| name := or_default name_ "";
                                 subdomain := subdomain;
                                 owner_id := or_default userId "";
                                 status := active;
                                 plan := free |} in
                          match error inserted, data inserted with
                          | Some tenantError, _ =>
                              ([console_error "Failed to create tenant:" (code tenantError)],
                               respond_create (CreateError "Failed to create project") 500, db1)
                          | None, None =>
                              caught [] (Error "Cannot read properties of null") db1
                          | None, Some (tenant_id, tenant) =>
                              let db2 :=
                                snd (insert_tenant_user managementAdmin db1 tenant_id
                                       (or_default userId "") owner) in
                              match initializeTenantData tenant_id with
                              | (l, Thrown error) =>
                                  (l ++ [console_error "Failed to initialize tenant data:"
                                           (message error)],
                                   respond_create
                                     (CreateError "Failed to initialize project data") 500,
                                   delete_tenant managementAdmin db2 tenant_id)
                              | (l, Returned _) =>
                                  match generateAccessURL env now tenant_id
                                          (or_default userId "") userEmail with
                                  | Thrown e => caught l e db2
                                  | Returned accessUrl =>
                                      (l ++ [console_log
                                               ("Created tenant: " +:+ tenant_id +:+ " ("
                                                +:+ name tenant +:+ ") for user: "
                                                +:+ or_default userId "")],
                                       respond_create
                                         (CreateCreated tenant_id tenant accessUrl) 201,
                                       db2)
                                  end
                              end
                          end
                      end
                end
            end
      end.

End CreateProject.


(** The store [d'] agrees with [d] outside one tenant and its grants. *)
Definition same_elsewhere (id : string) (d d' : ManagementDb) : Prop :=
  (forall i, i <> id -> tenants d' !! i = tenants d !! i) /\
  (forall t u, t <> id -> tenant_users d' !! (t, u) = tenant_users d !! (t, u)).

(** *** getTenantUsage (lib/supabase-tenants.ts)

    The three reads of the tenants' database are the arguments: the two
    exact counts ([null] when the read fails) and the [size] column of the
    tenant's assets. Sizes are whole numbers of bytes. The handler adds
    them as IEEE doubles; the sums below are exact. The two agree as long as
    the total stays below [2^53], where every whole number is a double and
    the division by [2^20] is exact; beyond that the handler rounds and this
    model does not follow it. *)

Record TenantUsage := { pages : Z; assets : Z; storage_mb : Z }.

(** [n || 0] on a [number | null] *)
Definition number_or_zero (n : option Z) : Z :=
  match n with Some z => z | None => 0 end.

(** [Math.round(x / d)] for whole [x] and [d > 0]: the nearest whole number,
    halves rounded up. *)
Definition Math_round_div (x d : Z) : Z := (2 * x + d) / (2 * d).

(** [assets?.reduce((total, asset) => total + (asset.size || 0), 0) || 0] *)
Definition storageBytes (sizes : option (list (option Z))) : Z :=
  match sizes with
  | Some l => fold_left (fun total size => total + number_or_zero size) l 0
  | None => 0
  end.

Definition getTenantUsage (pageCount assetCount : option Z)
    (sizes : option (list (option Z))) : TenantUsage :=
  {| pages := number_or_zero pageCount;
     assets := number_or_zero assetCount;
     storage_mb := Math_round_div (storageBytes sizes) (1024 * 1024) |}.

(** ** A concrete provisioning run *)

Module Provisioning.

Definition create_body0 : CreateBody :=
  {| body_name := Some "Blue Sky & Co."; body_subdomain := None |}.

Definition create_request0 : CreateRequest :=
  {| create_authorization := Some "Bearer header.payload.signature";
     create_json := Returned create_body0 |}.

(** Provisioning the tenants' database succeeds ... *)
Definition init_ok (tenantId : string) : Eff unit :=
  ([console_log ("Initialized data for tenant: " +:+ tenantId)], Returned tt).

(** ... or fails on the first insert. *)
Definition init_fails (tenantId : string) : Eff unit :=
  ([console_error "Failed to create default page:" "42501";
    console_error "Failed to initialize tenant data:" "42501"],
   Thrown (Error "42501")).

(** The tenant the run creates, and the store after it. *)
Definition tenant2 : Tenant :=
  {| name := "Blue Sky & Co."; subdomain := "blue-sky-co"; owner_id := "u1";
     status := active; plan := free |}.

Definition db2 : ManagementDb :=
  {| tenants := <["t2" := tenant2]> (tenants Scenario.db0);
     tenant_users := <[("t2", "u1") := {| role := owner |}]> (tenant_users Scenario.db0) |}.

Definition token2 : string :=
  @jwt_sign ReferenceJws.reference
    {| tenant_id := "t2"; user_id := "u1"; email := "user@ycode.app" |}
    "s3cret" Scenario.T0.

Definition lookup_acme : LookupRequest :=
  {| x_api_key := Some "internal"; search_subdomain := Some "acme" |}.

End Provisioning.

(** * Properties *)

(** ** Truthiness *)

Lemma truthy_or_default v d :
  truthy v = true -> v = Some (or_default v d) /\ or_default v d <> "".
Proof.
  destruct v as [s|]; cbn; [|discriminate].
  destruct (String.eqb s "") eqn:E; cbn; [discriminate|].
  intros _. split; [reflexivity|]. intros ->. discriminate.
Qed.

Lemma truthy_Some s :
  s <> "" -> truthy (Some s) = true /\ or_default (Some s) "" = s.
Proof.
  intros Hs. cbn. destruct (String.eqb_spec s ""); [contradiction|]. split; reflexivity.
Qed.

(** ** String helpers *)

Example split_dot_jwt : split_dot "header.payload.signature" = ["header"; "payload"; "signature"].
Proof. reflexivity. Qed.

Example split_dot_empty : split_dot "" = [""].
Proof. reflexivity. Qed.

Example split_dot_no_dot : nth_error (split_dot "opaque") 1 = None.
Proof. reflexivity. Qed.

Example replace_first_bearer :
  replace_first "Bearer " "" "Bearer header.payload.signature" = "header.payload.signature".
Proof. reflexivity. Qed.

Example replace_first_once :
  replace_first "Bearer " "" "Bearer Bearer x" = "Bearer x".
Proof. reflexivity. Qed.

Example replace_first_absent : replace_first "Bearer " "" "Basic abc" = "Basic abc".
Proof. reflexivity. Qed.

(** ** The token codec *)

Section TokenFacts.
Context {jws : Jws} {view : JwsExpView jws}.

Lemma option_string_eqb_true o s : option_string_eqb o s = true <-> o = Some s.
Proof.
  destruct o as [x|]; cbn.
  - rewrite String.eqb_eq. split; congruence.
  - split; discriminate.
Qed.

(** What an accepted token satisfies. *)
Lemma jwt_verify_inr token secret now p :
  jwt_verify token secret now = inr p ->
  token <> "" /\
  jws_decode token = Returned (Some p) /\
  jws_verify token secret = true /\
  (forall n, nbf p = Some n -> n <= clock_seconds now) /\
  (forall e, exp p = Some e -> clock_seconds now < e) /\
  aud p = Some audience /\
  iss p = Some issuer.
Proof.
  unfold jwt_verify.
  destruct (String.eqb_spec token ""); [discriminate|].
  destruct (jws_decode token) as [[q|]|]; try discriminate.
  destruct (jws_verify token secret); cbn [negb]; [|discriminate].
  destruct (match nbf q with Some n => clock_seconds now <? n | None => false end) eqn:Hn;
    [discriminate|].
  destruct (match exp q with Some e => e <=? clock_seconds now | None => false end) eqn:He;
    [discriminate|].
  destruct (option_string_eqb (aud q) audience) eqn:Ha; cbn [negb]; [|discriminate].
  destruct (option_string_eqb (iss q) issuer) eqn:Hi; cbn [negb]; [|discriminate].
  intros [= <-]. repeat split; try done.
  - intros m Hm. rewrite Hm in Hn. lia.
  - intros e He'. rewrite He' in He. lia.
  - by apply option_string_eqb_true.
  - by apply option_string_eqb_true.
Qed.

(** What a refused token failed on, by the class of the error raised. *)
Lemma jwt_verify_inl token secret now err :
  jwt_verify token secret now = inl err ->
  match err with
  | TokenExpiredError =>
      exists p e, jws_decode token = Returned (Some p) /\
                  jws_verify token secret = true /\
                  exp p = Some e /\ e <= clock_seconds now
  | OtherError ex => token <> "" /\ jws_decode token = Thrown ex
  | NotBeforeError | JsonWebTokenError _ =>
      token = "" \/ jws_decode token = Returned None \/
      exists p, jws_decode token = Returned (Some p) /\
                (jws_verify token secret = false \/
                 (exists n, nbf p = Some n /\ clock_seconds now < n) \/
                 aud p <> Some audience \/ iss p <> Some issuer)
  end.
Proof.
  unfold jwt_verify. intros Hv.
  destruct (String.eqb_spec token "") as [->|Hne]; [injection Hv as <-; by left|].
  destruct (jws_decode token) as [[p|]|ex]; simplify_eq; [|by right; left|done].
  destruct (jws_verify token secret) eqn:Hsig; cbn [negb] in Hv;
    [|injection Hv as <-; right; right; exists p; split; [done|by left]].
  destruct (match nbf p with Some n => clock_seconds now <? n | None => false end) eqn:Hn.
  { injection Hv as <-. right; right. exists p. split; [done|]. right; left.
    destruct (nbf p) as [n|]; [|done]. exists n. split; [done|lia]. }
  destruct (match exp p with Some e => e <=? clock_seconds now | None => false end) eqn:He.
  { injection Hv as <-. destruct (exp p) as [e|] eqn:He'; [|done].
    exists p, e. repeat split; try done. lia. }
  destruct (option_string_eqb (aud p) audience) eqn:Ha; cbn [negb] in Hv.
  2:{ injection Hv as <-. right; right. exists p. split; [done|]. right; right; left.
      intros E. apply option_string_eqb_true in E. congruence. }
  destruct (option_string_eqb (iss p) issuer) eqn:Hi; cbn [negb] in Hv; [done|].
  injection Hv as <-. right; right. exists p. split; [done|]. right; right; right.
  intros E. apply option_string_eqb_true in E. congruence.
Qed.

(** A freshly signed token verifies under the same secret until it expires. *)
Lemma jwt_verify_sign payload secret now now' :
  secret <> "" ->
  clock_seconds now' < clock_seconds now + 900 ->
  jwt_verify (jwt_sign payload secret now) secret now' = inr (signed_payload payload now).
Proof.
  intros Hk Hlt. unfold jwt_verify, jwt_sign.
  destruct (String.eqb_spec (jws_sign (signed_payload payload now) secret) "") as [E|_].
  { by apply jws_sign_nonempty in E. }
  rewrite jws_decode_sign, jws_verify_sign by exact Hk. cbn.
  change (expiresIn_ms / 1000) with 900.
  destruct (Z.leb_spec (clock_seconds now + 900) (clock_seconds now')); [lia|].
  reflexivity.
Qed.

Lemma validateSSOToken_configured env now token :
  truthy (SSO_SECRET env) = true ->
  validateSSOToken env now token =
    match jwt_verify token (or_default (SSO_SECRET env) "") now with
    | inr p => ([], Returned (Some p))
    | inl e =>
        (if instanceof_TokenExpiredError e then [console_log "SSO token expired"]
         else if instanceof_JsonWebTokenError e then [console_log "Invalid SSO token"]
         else [], Returned None)
    end.
Proof.
  intros Hs. unfold validateSSOToken. rewrite Hs. cbn [negb].
  destruct (jwt_verify _ _ _) as [e|p]; [|reflexivity].
  destruct e; reflexivity.
Qed.

Lemma validateSSOToken_Some_inv env now token l p :
  validateSSOToken env now token = (l, Returned (Some p)) ->
  truthy (SSO_SECRET env) = true /\ l = [] /\
  jwt_verify token (or_default (SSO_SECRET env) "") now = inr p.
Proof.
  unfold validateSSOToken.
  destruct (truthy (SSO_SECRET env)); cbn [negb]; [|discriminate].
  destruct (jwt_verify _ _ _) as [e|q].
  - destruct e; discriminate.
  - intros [= <- <-]. done.
Qed.

(** The access URL carries the token [generateSSOToken] mints; with the
    address the create handler falls back to, that token decodes to it. *)
Lemma generateAccessURL_fallback_email env now tenantId userId :
  truthy (SSO_SECRET env) = true ->
  exists token,
    generateAccessURL env now tenantId userId (or_default None placeholder_email) =
      Returned (or_default (NEXT_PUBLIC_CLOUD_DEPLOYMENT_URL env) "https://cloud.ycode.app"
                  +:+ "?token=" +:+ token) /\
    jwt_decode token =
      Returned (Some (signed_payload {| tenant_id := tenantId; user_id := userId;
                                        email := "user@ycode.app" |} now)).
Proof.
  intros Hs. destruct (truthy_or_default _ "" Hs) as [_ Hk].
  unfold generateAccessURL, generateSSOToken. rewrite Hs. cbn [negb or_default].
  eexists. split; [reflexivity|].
  unfold jwt_decode, jwt_sign. by rewrite jws_decode_sign.
Qed.

(** C7. With [SSO_SECRET] set, [generateSSOToken] returns a token whose
    decoded claims are the caller's payload, [iat] the mint time (in whole
    seconds), [exp] fifteen minutes later, and the fixed issuer and
    audience; the token verifies at the mint time, and [jwt.verify] accepts
    no token with another issuer or audience. Without the secret (unset or
    empty) it throws the configuration error and returns no token. *)
Theorem generateSSOToken_claims env now payload :
  match SSO_SECRET env with
  | Some secret =>
      if String.eqb secret "" then
        generateSSOToken env now payload = Thrown (Error "SSO_SECRET not configured")
      else
        exists token,
          generateSSOToken env now payload = Returned token /\
          jwt_decode token =
            Returned (Some {| claims := payload;
                              iat := Some (now / 1000);
                              exp := Some (now / 1000 + 15 * 60);
                              nbf := None;
                              iss := Some "ycode-cloud-management";
                              aud := Some "ycode-cloud-deployment" |}) /\
          jwt_verify token secret now = inr (signed_payload payload now) /\
          (forall other key now' p,
              jwt_verify other key now' = inr p ->
              iss p = Some "ycode-cloud-management" /\
              aud p = Some "ycode-cloud-deployment")
  | None => generateSSOToken env now payload = Thrown (Error "SSO_SECRET not configured")
  end.
Proof.
  unfold generateSSOToken.
  destruct (SSO_SECRET env) as [secret|]; cbn; [|reflexivity].
  destruct (String.eqb_spec secret "") as [|Hk]; cbn; [reflexivity|].
  eexists. split; [reflexivity|]. split; [|split].
  - unfold jwt_decode, jwt_sign. rewrite jws_decode_sign by exact Hk. reflexivity.
  - apply jwt_verify_sign; [exact Hk|lia].
  - intros other key now' p Hv. apply jwt_verify_inr in Hv. tauto.
Qed.

(** Where the two helpers do fail closed: on a string the decoder rejects
    (it returns [null] or throws) and on a payload whose [exp] is missing
    or falsy, [getTokenExpiration] is [null] and [isTokenExpired] is
    [true]. *)
Lemma isTokenExpired_fail_closed now token :
  ((forall x, jwt_decode_exp token <> Returned (Some x)) ->
   getTokenExpiration token = None /\ isTokenExpired now token = true) /\
  (forall x, jwt_decode_exp token = Returned (Some x) -> exp_falsy x = true ->
   getTokenExpiration token = None /\ isTokenExpired now token = true).
Proof.
  unfold isTokenExpired, getTokenExpiration. split.
  - intros Hbad.
    destruct (jwt_decode_exp token) as [[x|]|]; try (split; reflexivity).
    by destruct (Hbad x).
  - intros x Hx Hf. rewrite Hx, Hf. split; reflexivity.
Qed.

(** On a payload of the declared type the helpers read the typed field. *)
Lemma isTokenExpired_typed now token p :
  jwt_decode token = Returned (Some p) ->
  isTokenExpired now token =
    match exp p with
    | Some e => if e =? 0 then true else e * 1000 <=? now
    | None => true
    end /\
  getTokenExpiration token =
    match exp p with
    | Some e => if e =? 0 then None else Some (new_Date (e * 1000))
    | None => None
    end.
Proof.
  intros Hd. unfold isTokenExpired, getTokenExpiration, jwt_decode_exp.
  rewrite (jws_decode_exp_typed token p Hd). unfold exp_value.
  destruct (exp p) as [e|]; cbn; [|done].
  destruct (e =? 0); done.
Qed.

(** C8. The helpers do not fail closed on every malformed token. A payload
    whose [exp] is a non-empty string that is no number, as in
    [{ "exp": "never" }], passes the test [!decoded.exp];
    [decoded.exp * 1000] is then [NaN], so [Date.now() >= NaN] makes
    [isTokenExpired] answer [false] at every time, and [getTokenExpiration]
    returns the Invalid Date instead of [null]. *)
Theorem isTokenExpired_fails_open now token :
  jwt_decode_exp token = Returned (Some (ExpOther true None)) ->
  isTokenExpired now token = false /\
  getTokenExpiration token = Some InvalidDate.
Proof.
  intros Hd. unfold isTokenExpired, getTokenExpiration. rewrite Hd. done.
Qed.

(** [jwt.verify], check by check. *)
Lemma jwt_verify_unfold token secret now :
  jwt_verify token secret now =
    if String.eqb token "" then inl (JsonWebTokenError "jwt must be provided")
    else
      match jws_decode token with
      | Thrown e => inl (OtherError e)
      | Returned None => inl (JsonWebTokenError "jwt malformed")
      | Returned (Some payload) =>
          if negb (jws_verify token secret) then
            inl (JsonWebTokenError "invalid signature")
          else if match nbf payload with
                  | Some n => clock_seconds now <? n
                  | None => false
                  end then
            inl NotBeforeError
          else if match exp payload with
                  | Some e => e <=? clock_seconds now
                  | None => false
                  end then
            inl TokenExpiredError
          else if negb (option_string_eqb (aud payload) audience) then
            inl (JsonWebTokenError "jwt audience invalid")
          else if negb (option_string_eqb (iss payload) issuer) then
            inl (JsonWebTokenError "jwt issuer invalid")
          else inr payload
      end.
Proof. reflexivity. Qed.

(** Closes a case of a classification by the facts at hand. *)
Local Ltac by_cases :=
  intros;
  repeat match goal with
         | H : _ /\ _ |- _ => destruct H
         | H : exists _, _ |- _ => destruct H
         | H : _ \/ _ |- _ => destruct H
         end;
  simplify_eq;
  repeat match goal with
         | Hq : (forall n, ?f ?p = Some n -> _), Hn : ?f ?p = Some ?m |- _ =>
             pose proof (Hq m Hn); clear Hq
         end;
  first [done | lia].

(** The outcome [r] settles every clause of the classification. *)
Local Ltac classified r :=
  eexists _, r; split; [reflexivity|]; cbn;
  repeat split; first [by_cases | naive_solver].

(** C5, as amended. With [SSO_SECRET] set, [validateSSOToken] never throws,
    whatever the input string: it returns the payload or [null]. It returns
    the payload exactly for a non-empty token that decodes to it, carries a
    valid signature, whose [nbf] (if any) has passed, whose [exp] (if any)
    has not elapsed and whose audience and issuer are the fixed ones; then
    nothing is logged. [null] is the same for every failure; the cause
    shows in the log alone. ["SSO token expired"] is logged exactly for a
    non-empty token that decodes, carries a valid signature, whose [nbf]
    (if any) has passed and whose [exp] has elapsed. Nothing is logged with
    [null] exactly when the token is not empty and the decoder itself
    throws. ["Invalid SSO token"] is logged exactly for the other
    rejections: an empty token, one the decoder returns [null] for, a wrong
    signature, an [nbf] still ahead, or, [exp] not elapsed, a wrong
    audience or issuer. *)
Theorem validateSSOToken_returns env now token :
  truthy (SSO_SECRET env) = true ->
  let secret := or_default (SSO_SECRET env) "" in
  let checked p :=
    token <> "" /\ jwt_decode token = Returned (Some p) /\
    jws_verify token secret = true /\
    (forall n, nbf p = Some n -> n <= clock_seconds now) in
  let unexpired p := forall e, exp p = Some e -> clock_seconds now < e in
  exists l r,
    validateSSOToken env now token = (l, Returned r) /\
    (forall p, r = Some p <->
       checked p /\ unexpired p /\ aud p = Some audience /\ iss p = Some issuer) /\
    (r <> None -> l = []) /\
    (l = [console_log "SSO token expired"] <->
       exists p e, checked p /\ exp p = Some e /\ e <= clock_seconds now) /\
    (r = None /\ l = [] <-> token <> "" /\ exists ex, jwt_decode token = Thrown ex) /\
    (l = [console_log "Invalid SSO token"] <->
       token = "" \/ jwt_decode token = Returned None \/
       exists p, jwt_decode token = Returned (Some p) /\
         (jws_verify token secret = false \/
          (exists n, nbf p = Some n /\ clock_seconds now < n) \/
          (unexpired p /\ (aud p <> Some audience \/ iss p <> Some issuer)))).
Proof.
  intros Hs secret checked unexpired. subst checked unexpired. cbv beta.
  rewrite (validateSSOToken_configured _ _ _ Hs). fold secret.
  rewrite jwt_verify_unfold. unfold jwt_decode.
  destruct (String.eqb_spec token "") as [Ht|Ht]; [classified (@None SSOTokenPayload)|].
  destruct (jws_decode token) as [[p|]|ex] eqn:Hd;
    [|classified (@None SSOTokenPayload)..].
  destruct (jws_verify token secret) eqn:Hsig; cbn [negb];
    [|classified (@None SSOTokenPayload)].
  assert (Hnbf : (match nbf p with Some n => clock_seconds now <? n | None => false end) = true
                 <-> exists n, nbf p = Some n /\ clock_seconds now < n).
  { destruct (nbf p) as [n|].
    - rewrite Z.ltb_lt. split; [by exists n|by intros (m & [= <-] & Hm)].
    - split; [done|by intros (m & Hm & _)]. }
  assert (Hexp : (match exp p with Some e => e <=? clock_seconds now | None => false end) = true
                 <-> exists e, exp p = Some e /\ e <= clock_seconds now).
  { destruct (exp p) as [e|].
    - rewrite Z.leb_le. split; [by exists e|by intros (m & [= <-] & Hm)].
    - split; [done|by intros (m & Hm & _)]. }
  destruct (match nbf p with Some n => clock_seconds now <? n | None => false end).
  { destruct (proj1 Hnbf eq_refl) as (n & Hn & Hlt). clear Hnbf Hexp.
    classified (@None SSOTokenPayload). }
  assert (Hpassed : forall n, nbf p = Some n -> n <= clock_seconds now).
  { intros n Hn. destruct (Z.le_gt_cases n (clock_seconds now)) as [|Hgt]; [done|].
    assert (false = true) by (apply Hnbf; exists n; split; [done|lia]). done. }
  clear Hnbf.
  destruct (match exp p with Some e => e <=? clock_seconds now | None => false end).
  { destruct (proj1 Hexp eq_refl) as (e & He & Hle). clear Hexp.
    classified (@None SSOTokenPayload). }
  assert (Hun : forall e, exp p = Some e -> clock_seconds now < e).
  { intros e He. destruct (Z.lt_ge_cases (clock_seconds now) e) as [|Hge]; [done|].
    assert (false = true) by (apply Hexp; exists e; split; [done|lia]). done. }
  clear Hexp.
  pose proof (option_string_eqb_true (aud p) audience) as Haud.
  pose proof (option_string_eqb_true (iss p) issuer) as Hiss.
  destruct (option_string_eqb (aud p) audience); cbn [negb].
  2:{ assert (aud p <> Some audience) by (intros E; apply Haud in E; done).
      clear Haud Hiss. classified (@None SSOTokenPayload). }
  destruct (option_string_eqb (iss p) issuer); cbn [negb].
  2:{ assert (iss p <> Some issuer) by (intros E; apply Hiss in E; done).
      clear Haud Hiss. classified (@None SSOTokenPayload). }
  assert (aud p = Some audience) by (by apply Haud).
  assert (iss p = Some issuer) by (by apply Hiss).
  clear Haud Hiss. classified (Some p).
Qed.

End TokenFacts.

(** ** Redemption: POST /api/sso/validate *)

Section Redeem.
Context {jws : Jws}.

(** The handler on a request that carries a token, step by step. *)
Lemma POST_validate_steps env db now req b token :
  json req = Returned b -> body_token b = Some token -> token <> "" ->
  POST_validate env db now req =
    match validateSSOToken env now token with
    | (l, Thrown e) =>
        (l ++ [console_error "SSO validation error:" (message e)],
         NextResponse_json (ErrorBody "Validation failed") 500)
    | (l, Returned None) =>
        (l, NextResponse_json (ErrorBody "Invalid or expired token") 401)
    | (l, Returned (Some p)) =>
        match getManagementAdmin env with
        | Thrown e =>
            (l ++ [console_error "SSO validation error:" (message e)],
             NextResponse_json (ErrorBody "Validation failed") 500)
        | Returned _ =>
            (l,
             match tenants db !! tenant_id (claims p) with
             | None => NextResponse_json (ErrorBody "Tenant not found") 404
             | Some t =>
                 if TenantStatus_eqb (status t) active then
                   match tenant_users db !! (tenant_id (claims p), user_id (claims p)) with
                   | None =>
                       NextResponse_json
                         (ErrorBody "User does not have access to this tenant") 403
                   | Some g =>
                       NextResponse_json
                         (ValidatedBody (tenant_id (claims p)) (user_id (claims p))
                            (email (claims p)) (role g) (plan t)) 200
                   end
                 else
                   NextResponse_json (ErrorBody ("Tenant is " +:+ status_text (status t))) 403
             end)
        end
    end.
Proof.
  intros Hj Hb Ht. unfold POST_validate. rewrite Hj.
  cbn [lift bind]. rewrite Hb.
  destruct (truthy_Some token Ht) as [-> ->]. cbn [negb].
  destruct (validateSSOToken env now token) as [l [[p|]|e]]; cbn.
  - destruct (getManagementAdmin env) as [c|e]; cbn.
    + unfold select_tenant, select_tenant_user.
      destruct (tenants db !! tenant_id (claims p)) as [t|]; cbn.
      * destruct (TenantStatus_eqb (status t) active); cbn.
        -- destruct (tenant_users db !! _) as [g|]; cbn; by rewrite !app_nil_r.
        -- by rewrite !app_nil_r.
      * by rewrite !app_nil_r.
    + by rewrite ?app_nil_r.
  - by rewrite !app_nil_r.
  - reflexivity.
Qed.

(** A success response reveals every step that produced it. *)
Lemma POST_validate_200_inv env db now req t u e r pl :
  snd (POST_validate env db now req) = NextResponse_json (ValidatedBody t u e r pl) 200 ->
  exists b token p g tn,
    json req = Returned b /\ body_token b = Some token /\ token <> "" /\
    validateSSOToken env now token = ([], Returned (Some p)) /\
    (exists c, getManagementAdmin env = Returned c) /\
    claims p = {| tenant_id := t; user_id := u; email := e |} /\
    tenants db !! t = Some tn /\ status tn = active /\ plan tn = pl /\
    tenant_users db !! (t, u) = Some g /\ role g = r.
Proof.
  intros Hok.
  destruct (json req) as [b|ex] eqn:Hj.
  2:{ unfold POST_validate in Hok. rewrite Hj in Hok. discriminate. }
  destruct (truthy (body_token b)) eqn:Htr.
  2:{ unfold POST_validate in Hok. rewrite Hj in Hok. cbn in Hok.
      rewrite Htr in Hok. discriminate. }
  destruct (truthy_or_default _ "" Htr) as [Hb Hne].
  rewrite (POST_validate_steps _ _ _ _ _ _ Hj Hb Hne) in Hok.
  destruct (validateSSOToken env now _) as [l [[p|]|ex]] eqn:Hv; try discriminate.
  destruct (validateSSOToken_Some_inv _ _ _ _ _ Hv) as (_ & -> & _).
  destruct (getManagementAdmin env) as [c|ex] eqn:Hc; try discriminate.
  cbn [snd] in Hok.
  destruct (tenants db !! tenant_id (claims p)) as [tn|] eqn:Ht; try discriminate.
  destruct (status tn) eqn:Hst; cbn in Hok; try discriminate.
  destruct (tenant_users db !! _) as [g|] eqn:Hg; try discriminate.
  injection Hok as <- <- <- <- <-.
  exists b, (or_default (body_token b) ""), p, g, tn.
  repeat split; eauto. by destruct (claims p).
Qed.

(** C1. A success response of the validate handler implies that the
    request's token decodes to the (tenant_id, user_id) answered and that,
    in the store the call ran against, the grant for that pair exists and
    the tenant is active. Both are read afresh on every call: the same
    token at the same instant is refused once the tenant's status is set to
    anything but active, and once the grant is deleted. *)
Theorem honored_only_if_granted_and_active env db now req t u e r pl :
  snd (POST_validate env db now req) = NextResponse_json (ValidatedBody t u e r pl) 200 ->
  (exists b token p,
      json req = Returned b /\ body_token b = Some token /\
      jwt_decode token = Returned (Some p) /\
      claims p = {| tenant_id := t; user_id := u; email := e |}) /\
  (exists g tn,
      tenant_users db !! (t, u) = Some g /\ role g = r /\
      tenants db !! t = Some tn /\ status tn = active /\ plan tn = pl) /\
  (forall st, st <> active ->
      snd (POST_validate env (update_tenant_status db t st) now req) =
        NextResponse_json (ErrorBody ("Tenant is " +:+ status_text st)) 403) /\
  snd (POST_validate env (delete_tenant_user db t u) now req) =
    NextResponse_json (ErrorBody "User does not have access to this tenant") 403.
Proof.
  intros Hok.
  destruct (POST_validate_200_inv _ _ _ _ _ _ _ _ _ Hok)
    as (b & token & p & g & tn & Hj & Hb & Hne & Hv & [c Hc] & Hp & Ht & Hst & Hpl & Hg & Hr).
  assert (tenant_id (claims p) = t /\ user_id (claims p) = u) as [Et Eu]
    by (rewrite Hp; done).
  split.
  { exists b, token, p. repeat split; try done.
    apply validateSSOToken_Some_inv in Hv as (_ & _ & Hv).
    apply jwt_verify_inr in Hv. tauto. }
  split; [by exists g, tn|]. split.
  - intros st Hst'.
    rewrite (POST_validate_steps _ _ _ _ _ _ Hj Hb Hne), Hv, Hc. cbn [snd].
    rewrite Et. unfold update_tenant_status. cbn [tenants].
    rewrite lookup_alter_eq, Ht. cbn.
    destruct st; cbn; [contradiction|reflexivity|reflexivity].
  - rewrite (POST_validate_steps _ _ _ _ _ _ Hj Hb Hne), Hv, Hc. cbn [snd].
    rewrite Et, Eu. unfold delete_tenant_user. cbn [tenants tenant_users].
    rewrite Ht, Hst, lookup_delete_eq. reflexivity.
Qed.

(** C2. On a request that carries a token, in a configured deployment, the
    handler checks (a) the token, then (b) the tenant, then (c) the grant,
    and stops at the first check that fails: a token failure gives the 401
    whatever the store holds; with the token accepted, a missing or
    inactive tenant gives its response whatever the grants table holds;
    with the tenant active, a missing grant gives the 403; and only when
    all three pass is the result assembled, (d), from the decoded claims,
    the grant's role and the tenant's plan. *)
Theorem POST_validate_order env db now req b token :
  json req = Returned b -> body_token b = Some token -> token <> "" ->
  truthy (SSO_SECRET env) = true ->
  truthy (MANAGEMENT_SUPABASE_SERVICE_ROLE_KEY env) = true ->
  (snd (validateSSOToken env now token) = Returned None ->
   forall db',
     snd (POST_validate env db' now req) =
       NextResponse_json (ErrorBody "Invalid or expired token") 401) /\
  (forall p, snd (validateSSOToken env now token) = Returned (Some p) ->
     (tenants db !! tenant_id (claims p) = None ->
      forall grants,
        snd (POST_validate env (with_tenant_users db grants) now req) =
          NextResponse_json (ErrorBody "Tenant not found") 404) /\
     (forall tn, tenants db !! tenant_id (claims p) = Some tn ->
        (status tn <> active ->
         forall grants,
           snd (POST_validate env (with_tenant_users db grants) now req) =
             NextResponse_json (ErrorBody ("Tenant is " +:+ status_text (status tn))) 403) /\
        (status tn = active ->
         match tenant_users db !! (tenant_id (claims p), user_id (claims p)) with
         | None =>
             snd (POST_validate env db now req) =
               NextResponse_json (ErrorBody "User does not have access to this tenant") 403
         | Some g =>
             snd (POST_validate env db now req) =
               NextResponse_json
                 (ValidatedBody (tenant_id (claims p)) (user_id (claims p))
                    (email (claims p)) (role g) (plan tn)) 200
         end))).
Proof.
  intros Hj Hb Hne Hs Hk.
  assert (exists c, getManagementAdmin env = Returned c) as [c Hc].
  { unfold getManagementAdmin. rewrite Hk. eauto. }
  split.
  - intros Hv db'. rewrite (POST_validate_steps _ _ _ _ _ _ Hj Hb Hne).
    destruct (validateSSOToken env now token) as [l o]. cbn in Hv. by subst o.
  - intros p Hv.
    assert (forall d, snd (POST_validate env d now req) =
      match tenants d !! tenant_id (claims p) with
      | None => NextResponse_json (ErrorBody "Tenant not found") 404
      | Some t =>
          if TenantStatus_eqb (status t) active then
            match tenant_users d !! (tenant_id (claims p), user_id (claims p)) with
            | None =>
                NextResponse_json (ErrorBody "User does not have access to this tenant") 403
            | Some g =>
                NextResponse_json
                  (ValidatedBody (tenant_id (claims p)) (user_id (claims p))
                     (email (claims p)) (role g) (plan t)) 200
            end
          else NextResponse_json (ErrorBody ("Tenant is " +:+ status_text (status t))) 403
      end) as Hstep.
    { intros d. rewrite (POST_validate_steps _ _ _ _ _ _ Hj Hb Hne).
      destruct (validateSSOToken env now token) as [l o]. cbn in Hv. subst o.
      by rewrite Hc. }
    split.
    + intros Ht grants. rewrite Hstep. cbn [with_tenant_users tenants]. by rewrite Ht.
    + intros tn Ht. split.
      * intros Hst grants. rewrite Hstep. cbn [with_tenant_users tenants]. rewrite Ht.
        destruct (status tn); cbn; try reflexivity. contradiction.
      * intros Hst. rewrite Hstep, Ht, Hst. cbn.
        destruct (tenant_users db !! _); reflexivity.
Qed.

(** C3. A token minted for (tenant_id, user_id, email) and presented before
    it expires, to a configured deployment whose store holds the grant and
    the tenant as active, is accepted, and the response carries the same
    tenant_id, user_id and email (with the grant's role and the tenant's
    plan). *)
Theorem redeem_mint_roundtrip env db now now' payload token req b g tn :
  generateSSOToken env now payload = Returned token ->
  json req = Returned b -> body_token b = Some token ->
  truthy (MANAGEMENT_SUPABASE_SERVICE_ROLE_KEY env) = true ->
  tenant_users db !! (tenant_id payload, user_id payload) = Some g ->
  tenants db !! tenant_id payload = Some tn ->
  status tn = active ->
  clock_seconds now' < clock_seconds now + 15 * 60 ->
  POST_validate env db now' req =
    ([], NextResponse_json
           (ValidatedBody (tenant_id payload) (user_id payload) (email payload)
              (role g) (plan tn)) 200).
Proof.
  intros Hmint Hj Hb Hk Hg Ht Hst Hnow.
  unfold generateSSOToken in Hmint.
  destruct (truthy (SSO_SECRET env)) eqn:Hs; cbn [negb] in Hmint; [|discriminate].
  injection Hmint as <-.
  destruct (truthy_or_default _ "" Hs) as [_ Hk'].
  assert (jwt_sign payload (or_default (SSO_SECRET env) "") now <> "") as Hne.
  { unfold jwt_sign. by apply jws_sign_nonempty. }
  rewrite (POST_validate_steps _ _ _ _ _ _ Hj Hb Hne).
  rewrite (validateSSOToken_configured _ _ _ Hs).
  rewrite jwt_verify_sign by assumption.
  unfold getManagementAdmin. rewrite Hk. cbn [negb signed_payload claims].
  by rewrite Ht, Hst, Hg.
Qed.

End Redeem.

Section Rejections.
Context {jws : Jws}.

(** C4, as amended. Only the token failures are indistinguishable: any two
    attempts that fail at the token check (expired, bad signature, not a
    token), whatever the deployment, store, instant and token, receive the
    same response, the 401 "Invalid or expired token". The later checks
    each answer with a response of their own: 404 "Tenant not found",
    403 "Tenant is <status>", 403 "User does not have access to this
    tenant". *)
Theorem rejection_responses env db now req b token :
  json req = Returned b -> body_token b = Some token -> token <> "" ->
  truthy (SSO_SECRET env) = true ->
  truthy (MANAGEMENT_SUPABASE_SERVICE_ROLE_KEY env) = true ->
  (snd (validateSSOToken env now token) = Returned None ->
   snd (POST_validate env db now req) =
     NextResponse_json (ErrorBody "Invalid or expired token") 401 /\
   forall env' db' now' req' b' token',
     json req' = Returned b' -> body_token b' = Some token' -> token' <> "" ->
     snd (validateSSOToken env' now' token') = Returned None ->
     snd (POST_validate env' db' now' req') = snd (POST_validate env db now req)) /\
  (forall p, snd (validateSSOToken env now token) = Returned (Some p) ->
     match tenants db !! tenant_id (claims p) with
     | None =>
         snd (POST_validate env db now req) =
           NextResponse_json (ErrorBody "Tenant not found") 404
     | Some tn =>
         match status tn with
         | active =>
             tenant_users db !! (tenant_id (claims p), user_id (claims p)) = None ->
             snd (POST_validate env db now req) =
               NextResponse_json (ErrorBody "User does not have access to this tenant") 403
         | suspended =>
             snd (POST_validate env db now req) =
               NextResponse_json (ErrorBody "Tenant is suspended") 403
         | cancelled =>
             snd (POST_validate env db now req) =
               NextResponse_json (ErrorBody "Tenant is cancelled") 403
         end
     end).
Proof.
  intros Hj Hb Hne Hs Hk.
  assert (exists c, getManagementAdmin env = Returned c) as [c Hc].
  { unfold getManagementAdmin. rewrite Hk. eauto. }
  split.
  - intros Hv.
    assert (forall e d n r b0 t0,
      json r = Returned b0 -> body_token b0 = Some t0 -> t0 <> "" ->
      snd (validateSSOToken e n t0) = Returned None ->
      snd (POST_validate e d n r) =
        NextResponse_json (ErrorBody "Invalid or expired token") 401) as Hgen.
    { intros e d n r b0 t0 Hj0 Hb0 Hne0 Hv0.
      rewrite (POST_validate_steps _ _ _ _ _ _ Hj0 Hb0 Hne0).
      destruct (validateSSOToken e n t0) as [l o]. cbn in Hv0. by subst o. }
    split; [by eapply Hgen|].
    intros env' db' now' req' b' token' Hj' Hb' Hne' Hv'.
    rewrite (Hgen _ _ _ _ _ _ Hj' Hb' Hne' Hv'). symmetry. by eapply Hgen.
  - intros p Hv. rewrite (POST_validate_steps _ _ _ _ _ _ Hj Hb Hne).
    destruct (validateSSOToken env now token) as [l o]. cbn in Hv. subst o.
    rewrite Hc. cbn [snd].
    destruct (tenants db !! tenant_id (claims p)) as [tn|]; [|reflexivity].
    destruct (status tn); cbn; try reflexivity.
    by intros ->.
Qed.

(** C6, as amended. A token whose [exp] lies in the past is refused with
    the 401 "Invalid or expired token", whether or not its signature is
    valid. The response names no cause; the log does, and there the
    signature comes first: the token is recorded as expired only if its
    signature verifies (and its [nbf] has passed), otherwise as invalid. *)
Theorem expired_token_rejected env db now req b token p e :
  json req = Returned b -> body_token b = Some token -> token <> "" ->
  truthy (SSO_SECRET env) = true ->
  jwt_decode token = Returned (Some p) -> exp p = Some e -> e <= clock_seconds now ->
  snd (POST_validate env db now req) =
    NextResponse_json (ErrorBody "Invalid or expired token") 401 /\
  fst (POST_validate env db now req) =
    if jws_verify token (or_default (SSO_SECRET env) "")
       && match nbf p with Some n => n <=? clock_seconds now | None => true end
    then [console_log "SSO token expired"]
    else [console_log "Invalid SSO token"].
Proof.
  intros Hj Hb Hne Hs Hd He Hle.
  rewrite (POST_validate_steps _ _ _ _ _ _ Hj Hb Hne).
  rewrite (validateSSOToken_configured _ _ _ Hs).
  unfold jwt_verify. unfold jwt_decode in Hd. rewrite Hd.
  destruct (String.eqb_spec token ""); [contradiction|].
  destruct (jws_verify token _); cbn [negb andb]; [|by split].
  rewrite He.
  destruct (nbf p) as [m|].
  - destruct (Z.ltb_spec (clock_seconds now) m), (Z.leb_spec m (clock_seconds now));
      try lia; [by split|].
    destruct (Z.leb_spec e (clock_seconds now)); [by split|lia].
  - destruct (Z.leb_spec e (clock_seconds now)); [by split|lia].
Qed.

End Rejections.

(** ** Minting: POST /api/sso/generate *)

Section Mint.
Context {jws : Jws}.
Variable parse_base64_json : string -> Outcome AuthPayload.

Variables (env : Env) (db : ManagementDb) (now : Z) (req : NextRequest).
Variables (header segment userId tenantId : string).
Variables (principal : AuthPayload) (b : JsonBody) (grant : TenantUser).

(** The request is made by an authenticated principal ... *)
Hypothesis Hheader : authorization req = Some header.
Hypothesis Hsegment :
  nth_error (split_dot (replace_first "Bearer " "" header)) 1 = Some segment.
Hypothesis Hsegment_ne : segment <> "".
Hypothesis Hparse : parse_base64_json segment = Returned principal.
Hypothesis Hsub : sub principal = Some userId.
Hypothesis HuserId : userId <> "".
(** ... names a tenant ... *)
Hypothesis Hjson : json req = Returned b.
Hypothesis Htenant : body_tenant_id b = Some tenantId.
Hypothesis HtenantId : tenantId <> "".
(** ... in a configured deployment ... *)
Hypothesis Hkey : truthy (MANAGEMENT_SUPABASE_SERVICE_ROLE_KEY env) = true.
Hypothesis Hsecret : truthy (SSO_SECRET env) = true.
(** ... and holds a grant on that tenant. *)
Hypothesis Hgrant : tenant_users db !! (tenantId, userId) = Some grant.

Let minted : string :=
  jwt_sign {| tenant_id := tenantId; user_id := userId;
              email := or_default (auth_email principal) placeholder_email |}
    (or_default (SSO_SECRET env) "") now.

Lemma POST_generate_granted tenants' :
  POST_generate parse_base64_json env (with_tenants db tenants') now req =
    ([], NextResponse_json
           (TokenBody minted
              (or_default (CLOUD_DEPLOYMENT_URL env) "http://localhost:3000"
                 +:+ "?token=" +:+ minted)) 200).
Proof.
  assert (header <> "") as Hne.
  { intros ->. cbn in Hsegment. discriminate. }
  unfold POST_generate. rewrite Hheader.
  destruct (truthy_Some header Hne) as [-> ->]. cbn [negb].
  rewrite Hsegment.
  destruct (truthy_Some segment Hsegment_ne) as [-> ->]. cbn [negb].
  rewrite Hparse. cbn [lift bind]. rewrite Hsub.
  destruct (truthy_Some userId HuserId) as [-> ->]. cbn [negb].
  rewrite Hjson. cbn [lift bind]. rewrite Htenant.
  destruct (truthy_Some tenantId HtenantId) as [-> ->]. cbn [negb].
  unfold getManagementAdmin. rewrite Hkey. cbn [negb].
  unfold select_tenant_user. cbn [with_tenants tenant_users]. rewrite Hgrant.
  unfold generateSSOToken. rewrite Hsecret. cbn. reflexivity.
Qed.

(** C9. The generate handler never reads the tenants table: for a principal
    holding a grant on the target tenant (in a configured deployment) it
    answers 200 with a freshly signed token whatever that table holds, in
    particular when the tenant is suspended or cancelled. Operability is
    enforced at redemption: presented before it expires, while the tenant
    is not active, that token is refused with 403 "Tenant is <status>". *)
Theorem mint_ignores_tenant_status tenants' :
  POST_generate parse_base64_json env (with_tenants db tenants') now req =
    ([], NextResponse_json
           (TokenBody minted
              (or_default (CLOUD_DEPLOYMENT_URL env) "http://localhost:3000"
                 +:+ "?token=" +:+ minted)) 200) /\
  (forall tn now' req' b',
      tenants' !! tenantId = Some tn -> status tn <> active ->
      json req' = Returned b' -> body_token b' = Some minted ->
      clock_seconds now' < clock_seconds now + 15 * 60 ->
      snd (POST_validate env (with_tenants db tenants') now' req') =
        NextResponse_json (ErrorBody ("Tenant is " +:+ status_text (status tn))) 403).
Proof.
  split; [apply POST_generate_granted|].
  intros tn now' req' b' Htn Hst Hj' Hb' Hnow.
  destruct (truthy_or_default _ "" Hsecret) as [_ Hk'].
  assert (minted <> "") as Hne by (by apply jws_sign_nonempty).
  rewrite (POST_validate_steps _ _ _ _ _ _ Hj' Hb' Hne).
  rewrite (validateSSOToken_configured _ _ _ Hsecret).
  unfold minted. rewrite jwt_verify_sign by assumption.
  unfold getManagementAdmin. rewrite Hkey.
  cbn [negb signed_payload claims tenant_id snd with_tenants tenants].
  rewrite Htn. destruct (status tn); cbn; try reflexivity. contradiction.
Qed.

End Mint.

(** ** The theorems at work on the concrete deployment *)

Import Scenario.

(** C4: an inactive tenant, a missing tenant, a missing grant and an expired
    token are each refused, with four different responses. *)
Lemma rejections_distinguishable :
  let request := token_request token0 in
  let expired := snd (@POST_validate ReferenceJws.reference env0 db0 late request) in
  let inactive :=
    snd (@POST_validate ReferenceJws.reference env0
           (update_tenant_status db0 "t1" suspended) soon request) in
  let unknown :=
    snd (@POST_validate ReferenceJws.reference env0 (with_tenants db0 ∅) soon request) in
  let revoked :=
    snd (@POST_validate ReferenceJws.reference env0
           (delete_tenant_user db0 "t1" "u1") soon request) in
  expired = NextResponse_json (ErrorBody "Invalid or expired token") 401 /\
  inactive = NextResponse_json (ErrorBody "Tenant is suspended") 403 /\
  unknown = NextResponse_json (ErrorBody "Tenant not found") 404 /\
  revoked = NextResponse_json (ErrorBody "User does not have access to this tenant") 403 /\
  expired <> inactive /\ expired <> unknown /\ expired <> revoked /\
  inactive <> unknown /\ inactive <> revoked /\ unknown <> revoked.
Proof.
  vm_compute. repeat split; discriminate.
Qed.

(** C5: in the configured deployment, a validly signed token past its
    [exp] and a string that is not a token get one and the same return
    value, [null]: the result carries no tag that tells expiry from any
    other failure. Only the log line differs. And in a deployment without
    [SSO_SECRET] the function throws, here on the string that is not a
    token. *)
Lemma validateSSOToken_null_untagged :
  let expired := @validateSSOToken ReferenceJws.reference env0 late token0 in
  let garbage := @validateSSOToken ReferenceJws.reference env0 late "not-a-token" in
  (exists p e,
      @jwt_decode ReferenceJws.reference token0 = Returned (Some p) /\
      @jws_verify ReferenceJws.reference token0 "s3cret" = true /\
      exp p = Some e /\ e <= clock_seconds late) /\
  @jwt_decode ReferenceJws.reference "not-a-token" = Returned None /\
  snd expired = Returned None /\
  snd garbage = Returned None /\
  snd expired = snd garbage /\
  fst expired = [console_log "SSO token expired"] /\
  fst garbage = [console_log "Invalid SSO token"] /\
  @validateSSOToken ReferenceJws.reference env_unconfigured late "not-a-token" =
    ([], Thrown (Error "SSO_SECRET not configured")).
Proof.
  split.
  { exists (signed_payload claims0 T0), (clock_seconds T0 + 900).
    repeat split; try reflexivity. vm_compute. discriminate. }
  repeat split; vm_compute; reflexivity.
Qed.

(** C6: a token past its [exp] and signed with another secret is not
    reported as expired: [validateSSOToken] records it as invalid, and the
    response is the generic 401. *)
Lemma expired_forged_token_logged_invalid :
  (exists p e,
      @jwt_decode ReferenceJws.reference forged = Returned (Some p) /\
      exp p = Some e /\ e <= clock_seconds late) /\
  @validateSSOToken ReferenceJws.reference env0 late forged =
    ([console_log "Invalid SSO token"], Returned None) /\
  @POST_validate ReferenceJws.reference env0 db0 late (token_request forged) =
    ([console_log "Invalid SSO token"],
     NextResponse_json (ErrorBody "Invalid or expired token") 401) /\
  ~ In (console_log "SSO token expired")
      (fst (@POST_validate ReferenceJws.reference env0 db0 late (token_request forged))).
Proof.
  split; [|split; [|split]].
  - exists (signed_payload claims0 T0), (clock_seconds T0 + 900).
    split; [|split].
    + vm_compute. reflexivity.
    + reflexivity.
    + vm_compute. discriminate.
  - vm_compute. reflexivity.
  - vm_compute. reflexivity.
  - vm_compute. intros [E|[]]. discriminate.
Qed.

(** C1 on [token0], five minutes after minting. *)
Lemma honored_only_if_granted_and_active_witness :
  snd (@POST_validate ReferenceJws.reference env0 db0 soon (token_request token0)) =
    NextResponse_json (ValidatedBody "t1" "u1" "a@b.com" owner pro) 200 /\
  (exists g tn,
      tenant_users db0 !! ("t1", "u1") = Some g /\ role g = owner /\
      tenants db0 !! "t1" = Some tn /\ status tn = active /\ plan tn = pro) /\
  snd (@POST_validate ReferenceJws.reference env0
         (update_tenant_status db0 "t1" suspended) soon (token_request token0)) =
    NextResponse_json (ErrorBody "Tenant is suspended") 403 /\
  snd (@POST_validate ReferenceJws.reference env0
         (update_tenant_status db0 "t1" cancelled) soon (token_request token0)) =
    NextResponse_json (ErrorBody "Tenant is cancelled") 403 /\
  snd (@POST_validate ReferenceJws.reference env0
         (delete_tenant_user db0 "t1" "u1") soon (token_request token0)) =
    NextResponse_json (ErrorBody "User does not have access to this tenant") 403.
Proof.
  assert (snd (@POST_validate ReferenceJws.reference env0 db0 soon (token_request token0)) =
          NextResponse_json (ValidatedBody "t1" "u1" "a@b.com" owner pro) 200) as Hok
    by (vm_compute; reflexivity).
  destruct (@honored_only_if_granted_and_active ReferenceJws.reference
              env0 db0 soon (token_request token0) "t1" "u1" "a@b.com" owner pro Hok)
    as (_ & Hstore & Hstatus & Hgrant).
  split; [exact Hok|]. split; [exact Hstore|].
  split; [exact (Hstatus suspended ltac:(discriminate))|].
  split; [exact (Hstatus cancelled ltac:(discriminate))|exact Hgrant].
Defined.

(** C2 on [token0]: expired, the store is not looked at; in time, the tenant
    decides before the grant does. *)
Lemma POST_validate_order_witness :
  (forall db',
      snd (@POST_validate ReferenceJws.reference env0 db' late (token_request token0)) =
        NextResponse_json (ErrorBody "Invalid or expired token") 401) /\
  (forall grants,
      snd (@POST_validate ReferenceJws.reference env0
             (with_tenant_users (update_tenant_status db0 "t1" suspended) grants)
             soon (token_request token0)) =
        NextResponse_json (ErrorBody "Tenant is suspended") 403) /\
  snd (@POST_validate ReferenceJws.reference env0 db0 soon (token_request token0)) =
    NextResponse_json (ValidatedBody "t1" "u1" "a@b.com" owner pro) 200.
Proof.
  split; [|split].
  - refine (proj1 (@POST_validate_order ReferenceJws.reference env0 db0 late
                     (token_request token0) body0 token0 _ _ _ _ _) _);
      first [reflexivity | discriminate].
  - refine (proj1 (proj2 (proj2 (@POST_validate_order ReferenceJws.reference env0
                     (update_tenant_status db0 "t1" suspended) soon
                     (token_request token0) body0 token0 _ _ _ _ _)
                     (signed_payload claims0 T0) _)
                     (set_status tenant0 suspended) _) _);
      first [reflexivity | discriminate].
  - refine (proj2 (proj2 (proj2 (@POST_validate_order ReferenceJws.reference env0
                     db0 soon (token_request token0) body0 token0 _ _ _ _ _)
                     (signed_payload claims0 T0) _)
                     tenant0 _) _);
      first [reflexivity | discriminate].
Defined.

(** C3 on [token0]: minted at [T0], redeemed five minutes later. *)
Lemma redeem_mint_roundtrip_witness :
  @generateSSOToken ReferenceJws.reference env0 T0 claims0 = Returned token0 /\
  @POST_validate ReferenceJws.reference env0 db0 soon (token_request token0) =
    ([], NextResponse_json (ValidatedBody "t1" "u1" "a@b.com" owner pro) 200).
Proof.
  split; [reflexivity|].
  apply (@redeem_mint_roundtrip ReferenceJws.reference env0 db0 T0 soon claims0 token0
           (token_request token0) body0 grant0 tenant0);
    reflexivity.
Defined.

(** C4 on [forged] and on [token0] once expired: two token failures of
    different causes, one response. *)
Lemma rejection_responses_witness :
  snd (@POST_validate ReferenceJws.reference env0 db0 late (token_request token0)) =
    NextResponse_json (ErrorBody "Invalid or expired token") 401 /\
  snd (@POST_validate ReferenceJws.reference env0 db0 soon (token_request forged)) =
    snd (@POST_validate ReferenceJws.reference env0 db0 late (token_request token0)).
Proof.
  destruct (proj1 (@rejection_responses ReferenceJws.reference env0 db0 late
                     (token_request token0) body0 token0
                     eq_refl eq_refl ltac:(discriminate) eq_refl eq_refl) eq_refl)
    as [H401 Hsame].
  split; [exact H401|].
  exact (Hsame env0 db0 soon (token_request forged)
           {| body_token := Some forged; body_tenant_id := None |} forged
           eq_refl eq_refl ltac:(discriminate) eq_refl).
Defined.

(** C5 on [token0], sixteen minutes after minting: [null], and the log
    says why. *)
Lemma validateSSOToken_returns_witness :
  @validateSSOToken ReferenceJws.reference env0 late token0 =
    ([console_log "SSO token expired"], Returned None).
Proof.
  destruct (@validateSSOToken_returns ReferenceJws.reference env0 late token0 eq_refl)
    as (l & r & Hr & Hsome & _ & Hexpired & _).
  rewrite Hr.
  assert (l = [console_log "SSO token expired"]) as ->.
  { apply Hexpired. exists (signed_payload claims0 T0), (clock_seconds T0 + 900).
    repeat split; first [reflexivity | discriminate]. }
  destruct r as [p|]; [|reflexivity].
  destruct (proj1 (Hsome p) eq_refl) as ((_ & Hd & _) & Hun & _).
  injection Hd as <-. specialize (Hun _ eq_refl). vm_compute in Hun. discriminate.
Defined.

(** C6 on [token0], sixteen minutes after minting. *)
Lemma expired_token_rejected_witness :
  @POST_validate ReferenceJws.reference env0 db0 late (token_request token0) =
    ([console_log "SSO token expired"],
     NextResponse_json (ErrorBody "Invalid or expired token") 401).
Proof.
  destruct (@expired_token_rejected ReferenceJws.reference env0 db0 late
              (token_request token0) body0 token0 (signed_payload claims0 T0)
              (clock_seconds T0 + 900)
              eq_refl eq_refl ltac:(discriminate) eq_refl eq_refl eq_refl
              ltac:(vm_compute; discriminate))
    as [Hresp Hlog].
  rewrite (surjective_pairing (POST_validate _ _ _ _)), Hresp, Hlog. reflexivity.
Defined.

(** Where the helpers fail closed: a string that is not a token and a claim
    set without [exp]. *)
Example isTokenExpired_fail_closed_example :
  (@getTokenExpiration _ ReferenceJws.reference_view "not-a-token" = None /\
   @isTokenExpired _ ReferenceJws.reference_view T0 "not-a-token" = true) /\
  (@getTokenExpiration _ ReferenceJws.reference_view undated = None /\
   @isTokenExpired _ ReferenceJws.reference_view T0 undated = true).
Proof.
  split.
  - apply (proj1 (@isTokenExpired_fail_closed _ ReferenceJws.reference_view
                    T0 "not-a-token")).
    intros x. vm_compute. discriminate.
  - apply (proj2 (@isTokenExpired_fail_closed _ ReferenceJws.reference_view T0 undated)
             ExpUndefined);
      reflexivity.
Qed.

(** C8 on [never], whose payload is [{ "exp": "never" }]: not expired,
    sixteen minutes or any other time after any mint. *)
Lemma isTokenExpired_fails_open_witness :
  @isTokenExpired _ ReferenceJws.reference_view late never = false /\
  @getTokenExpiration _ ReferenceJws.reference_view never = Some InvalidDate.
Proof.
  exact (@isTokenExpired_fails_open _ ReferenceJws.reference_view late never eq_refl).
Defined.

(** C9 on [generate_request0], with the tenant suspended before minting. *)
Lemma mint_ignores_tenant_status_witness :
  let suspended_db := update_tenant_status db0 "t1" suspended in
  @POST_generate ReferenceJws.reference parse0 env0 suspended_db T0 generate_request0 =
    ([], NextResponse_json
           (TokenBody token1 ("http://localhost:3000?token=" +:+ token1)) 200) /\
  snd (@POST_validate ReferenceJws.reference env0 suspended_db soon (token_request token1)) =
    NextResponse_json (ErrorBody "Tenant is suspended") 403.
Proof.
  destruct (@mint_ignores_tenant_status ReferenceJws.reference parse0 env0 db0 T0
              generate_request0 "Bearer header.payload.signature" "payload" "u1" "t1"
              principal0 generate_body0 grant0
              eq_refl eq_refl ltac:(discriminate) eq_refl eq_refl ltac:(discriminate)
              eq_refl eq_refl ltac:(discriminate) eq_refl eq_refl eq_refl
              (tenants (update_tenant_status db0 "t1" suspended)))
    as [Hmint Hredeem].
  split; [exact Hmint|].
  exact (Hredeem (set_status tenant0 suspended) soon (token_request token1)
           {| body_token := Some token1; body_tenant_id := None |}
           eq_refl ltac:(discriminate) eq_refl eq_refl eq_refl).
Defined.

(** * Further properties of the handlers *)

Section MintMore.
Context {jws : Jws}.
Variable parse_base64_json : string -> Outcome AuthPayload.

(** A 200 of the generate handler reveals every step that produced it. *)
Lemma POST_generate_200_inv env db now req token url :
  snd (POST_generate parse_base64_json env db now req) =
    NextResponse_json (TokenBody token url) 200 ->
  exists header segment principal userId b tenantId g,
    authorization req = Some header /\
    nth_error (split_dot (replace_first "Bearer " "" header)) 1 = Some segment /\
    segment <> "" /\
    parse_base64_json segment = Returned principal /\
    sub principal = Some userId /\ userId <> "" /\
    json req = Returned b /\ body_tenant_id b = Some tenantId /\ tenantId <> "" /\
    truthy (MANAGEMENT_SUPABASE_SERVICE_ROLE_KEY env) = true /\
    truthy (SSO_SECRET env) = true /\
    tenant_users db !! (tenantId, userId) = Some g /\
    token = jwt_sign {| tenant_id := tenantId; user_id := userId;
                        email := or_default (auth_email principal) placeholder_email |}
              (or_default (SSO_SECRET env) "") now /\
    url = or_default (CLOUD_DEPLOYMENT_URL env) "http://localhost:3000"
            +:+ "?token=" +:+ token.
Proof.
  unfold POST_generate. intros Hok.
  destruct (truthy (authorization req)) eqn:Hh; cbn [negb] in Hok; [|discriminate].
  destruct (truthy_or_default _ "" Hh) as [Hheader _].
  set (header := or_default (authorization req) "") in *.
  destruct (truthy (nth_error (split_dot (replace_first "Bearer " "" header)) 1)) eqn:Hs;
    cbn [negb] in Hok; [|discriminate].
  destruct (truthy_or_default _ "" Hs) as [Hseg Hsne].
  set (segment := or_default (nth_error _ 1) "") in *.
  destruct (parse_base64_json segment) as [principal|ex] eqn:Hp; [|discriminate].
  cbn [lift bind] in Hok.
  destruct (truthy (sub principal)) eqn:Hu; cbn [negb] in Hok; [|discriminate].
  destruct (truthy_or_default _ "" Hu) as [Hsub Hune].
  set (userId := or_default (sub principal) "") in *.
  destruct (json req) as [b|ex] eqn:Hj; [|discriminate].
  cbn [lift bind] in Hok.
  destruct (truthy (body_tenant_id b)) eqn:Ht; cbn [negb] in Hok; [|discriminate].
  destruct (truthy_or_default _ "" Ht) as [Htid Htne].
  set (tenantId := or_default (body_tenant_id b) "") in *.
  unfold getManagementAdmin in Hok.
  destruct (truthy (MANAGEMENT_SUPABASE_SERVICE_ROLE_KEY env)) eqn:Hkey;
    cbn [negb] in Hok; [|discriminate].
  cbn [lift bind] in Hok. unfold select_tenant_user in Hok.
  destruct (tenant_users db !! (tenantId, userId)) as [g|] eqn:Hg; [|discriminate].
  cbn in Hok. unfold generateSSOToken in Hok.
  destruct (truthy (SSO_SECRET env)) eqn:Hk; cbn in Hok; [|discriminate].
  injection Hok as <- <-.
  exists header, segment, principal, userId, b, tenantId, g.
  repeat split; done.
Qed.

(** X1. The generate handler answers 200 with a token only to a request
    whose bearer token names a principal ([sub]) holding a grant on the
    tenant the body asks for; the token's claims are that tenant, that
    principal, and the principal's email or the placeholder, stamped with
    the time of the call. *)
Theorem generate_only_if_granted env db now req token url :
  snd (POST_generate parse_base64_json env db now req) =
    NextResponse_json (TokenBody token url) 200 ->
  exists header segment principal userId b tenantId g,
    authorization req = Some header /\
    nth_error (split_dot (replace_first "Bearer " "" header)) 1 = Some segment /\
    parse_base64_json segment = Returned principal /\
    sub principal = Some userId /\ userId <> "" /\
    json req = Returned b /\ body_tenant_id b = Some tenantId /\ tenantId <> "" /\
    tenant_users db !! (tenantId, userId) = Some g /\
    jwt_decode token =
      Returned (Some (signed_payload
                        {| tenant_id := tenantId; user_id := userId;
                           email := or_default (auth_email principal) placeholder_email |}
                        now)).
Proof.
  intros Hok.
  destruct (POST_generate_200_inv _ _ _ _ _ _ Hok)
    as (header & segment & principal & userId & b & tenantId & g & Hh & Hs & _ & Hp &
        Hsub & Hune & Hj & Ht & Htne & _ & Hk & Hg & -> & _).
  destruct (truthy_or_default _ "" Hk) as [_ Hkne].
  exists header, segment, principal, userId, b, tenantId, g.
  repeat split; try done.
  unfold jwt_decode, jwt_sign. by rewrite jws_decode_sign.
Qed.

(** X3. Hand-off between the two handlers: a token the generate handler
    returned, presented to the validate handler of the same deployment and
    store before it expires, is answered by the tenant's state alone. The
    principal is the one the minting request's bearer token names, the
    tenant the one its body asks for, the grant the principal's on that
    tenant: 200 with the principal's id, the principal's email or the
    placeholder, the grant's role and the tenant's plan when the tenant is
    active, 403 naming the status when it is not, 404 when it is gone. *)
Theorem generate_then_validate env db now now' req req' token url b' :
  snd (POST_generate parse_base64_json env db now req) =
    NextResponse_json (TokenBody token url) 200 ->
  json req' = Returned b' -> body_token b' = Some token ->
  clock_seconds now' < clock_seconds now + 15 * 60 ->
  exists header segment principal userId b tenantId g,
    authorization req = Some header /\
    nth_error (split_dot (replace_first "Bearer " "" header)) 1 = Some segment /\
    parse_base64_json segment = Returned principal /\
    sub principal = Some userId /\
    json req = Returned b /\ body_tenant_id b = Some tenantId /\
    tenant_users db !! (tenantId, userId) = Some g /\
    snd (POST_validate env db now' req') =
      match tenants db !! tenantId with
      | None => NextResponse_json (ErrorBody "Tenant not found") 404
      | Some tn =>
          match status tn with
          | active =>
              NextResponse_json
                (ValidatedBody tenantId userId
                   (or_default (auth_email principal) placeholder_email)
                   (role g) (plan tn)) 200
          | _ => NextResponse_json (ErrorBody ("Tenant is " +:+ status_text (status tn))) 403
          end
      end.
Proof.
  intros Hok Hj' Hb' Hnow.
  destruct (POST_generate_200_inv _ _ _ _ _ _ Hok)
    as (header & segment & principal & userId & b & tenantId & g & Hh & Hs & _ & Hp &
        Hsub & Hune & Hj & Ht & Htne & Hkey & Hk & Hg & -> & _).
  destruct (truthy_or_default _ "" Hk) as [_ Hkne].
  exists header, segment, principal, userId, b, tenantId, g. repeat split; try done.
  assert (jwt_sign {| tenant_id := tenantId; user_id := userId;
                      email := or_default (auth_email principal) placeholder_email |}
            (or_default (SSO_SECRET env) "") now <> "") as Hne
    by (by apply jws_sign_nonempty).
  rewrite (POST_validate_steps _ _ _ _ _ _ Hj' Hb' Hne).
  rewrite (validateSSOToken_configured _ _ _ Hk).
  rewrite jwt_verify_sign by assumption.
  unfold getManagementAdmin. rewrite Hkey.
  cbn [negb signed_payload claims tenant_id user_id email snd].
  destruct (tenants db !! tenantId) as [tn|]; [|reflexivity].
  destruct (status tn); cbn; try reflexivity. by rewrite Hg.
Qed.

End MintMore.

Section MintRefusals.
Context {jws : Jws}.
Variable parse_base64_json : string -> Outcome AuthPayload.

(** X2. The generate handler checks the grant before it touches the signing
    secret: an authenticated principal without a grant gets 403 "Access
    denied" whether or not [SSO_SECRET] is set; with a grant and no secret
    the answer is 500, and its [details] field spells out
    "SSO_SECRET not configured". *)
Theorem generate_access_before_secret env db now req header segment principal userId b tenantId :
  authorization req = Some header ->
  nth_error (split_dot (replace_first "Bearer " "" header)) 1 = Some segment ->
  segment <> "" ->
  parse_base64_json segment = Returned principal ->
  sub principal = Some userId -> userId <> "" ->
  json req = Returned b -> body_tenant_id b = Some tenantId -> tenantId <> "" ->
  truthy (MANAGEMENT_SUPABASE_SERVICE_ROLE_KEY env) = true ->
  match tenant_users db !! (tenantId, userId) with
  | None =>
      POST_generate parse_base64_json env db now req =
        ([console_error "Access check failed:" "PGRST116"],
         NextResponse_json (ErrorBody "Access denied") 403)
  | Some _ =>
      truthy (SSO_SECRET env) = false ->
      POST_generate parse_base64_json env db now req =
        ([console_error "SSO generation error:" "SSO_SECRET not configured"],
         NextResponse_json
           (ErrorDetailsBody "Failed to generate token" "SSO_SECRET not configured") 500)
  end.
Proof.
  intros Hheader Hsegment Hsne Hparse Hsub Hune Hjson Htenant Htne Hkey.
  assert (header <> "") as Hne.
  { intros ->. cbn in Hsegment. discriminate. }
  unfold POST_generate. rewrite Hheader.
  destruct (truthy_Some header Hne) as [-> ->]. cbn [negb].
  rewrite Hsegment.
  destruct (truthy_Some segment Hsne) as [-> ->]. cbn [negb].
  rewrite Hparse. cbn [lift bind]. rewrite Hsub.
  destruct (truthy_Some userId Hune) as [-> ->]. cbn [negb].
  rewrite Hjson. cbn [lift bind]. rewrite Htenant.
  destruct (truthy_Some tenantId Htne) as [-> ->]. cbn [negb].
  unfold getManagementAdmin. rewrite Hkey. cbn [negb].
  unfold select_tenant_user.
  destruct (tenant_users db !! (tenantId, userId)) as [g|]; cbn.
  - intros Hs. unfold generateSSOToken. rewrite Hs. reflexivity.
  - reflexivity.
Qed.

End MintRefusals.


Section RedeemEdges.
Context {jws : Jws} {view : JwsExpView jws}.

(** X4. The validate handler in a misconfigured deployment. Without
    [SSO_SECRET] every request that carries a token gets 500 "Validation
    failed", the cause going to the log only. With the secret but without
    the service-role key, the token is still checked first: a token that
    fails gets the 401, one that passes gets the 500. *)
Theorem POST_validate_misconfigured env db now req b token :
  json req = Returned b -> body_token b = Some token -> token <> "" ->
  (truthy (SSO_SECRET env) = false ->
   POST_validate env db now req =
     ([console_error "SSO validation error:" "SSO_SECRET not configured"],
      NextResponse_json (ErrorBody "Validation failed") 500)) /\
  (truthy (SSO_SECRET env) = true ->
   truthy (MANAGEMENT_SUPABASE_SERVICE_ROLE_KEY env) = false ->
   snd (POST_validate env db now req) =
     match snd (validateSSOToken env now token) with
     | Returned (Some _) => NextResponse_json (ErrorBody "Validation failed") 500
     | _ => NextResponse_json (ErrorBody "Invalid or expired token") 401
     end).
Proof.
  intros Hj Hb Hne. rewrite (POST_validate_steps _ _ _ _ _ _ Hj Hb Hne). split.
  - intros Hs. unfold validateSSOToken. rewrite Hs. reflexivity.
  - intros Hs Hk. rewrite (validateSSOToken_configured _ _ _ Hs).
    unfold getManagementAdmin. rewrite Hk. cbn [negb].
    destruct (jwt_verify _ _ _); reflexivity.
Qed.

(** X5. Expiry is final: a token [isTokenExpired] reports expired at some
    instant is reported expired at every later instant. *)
Theorem isTokenExpired_monotone now now' token :
  now <= now' -> isTokenExpired now token = true -> isTokenExpired now' token = true.
Proof.
  unfold isTokenExpired. intros Hle.
  destruct (jwt_decode_exp token) as [[x|]|]; try done.
  destruct (exp_falsy x); [done|].
  destruct (exp_times_1000 x) as [ms|]; [|done].
  intros He. apply Z.leb_le in He. apply Z.leb_le. lia.
Qed.

(** X6. [getTokenExpiration] of a freshly minted token is the [Date] of the
    mint time cut to whole seconds plus fifteen minutes: more than
    14 min 59 s and at most 15 min after minting; a valid [Date] as long as
    that instant is one ([Date]s end 8.64e15 ms after the epoch). *)
Theorem minted_token_expiration payload secret now :
  secret <> "" -> 0 <= now ->
  exists date,
    getTokenExpiration (jwt_sign payload secret now) = Some (new_Date date) /\
    date = (now / 1000 + 900) * 1000 /\
    now + 899000 < date <= now + 900000 /\
    (date <= 8640000000000000 -> new_Date date = Date date).
Proof.
  intros Hk Hnow. unfold jwt_sign.
  rewrite (proj2 (isTokenExpired_typed 0 _ _ (jws_decode_sign _ _ Hk))).
  unfold signed_payload, clock_seconds. cbn [exp].
  change (expiresIn_ms / 1000) with 900.
  assert (0 <= now / 1000) by (apply Z.div_pos; lia).
  destruct (Z.eqb_spec (now / 1000 + 900) 0); [lia|].
  eexists. split; [reflexivity|]. split; [reflexivity|].
  pose proof (Z.div_mod now 1000 ltac:(lia)).
  pose proof (Z.mod_pos_bound now 1000 ltac:(lia)).
  split; [lia|].
  intros Hle. unfold new_Date. rewrite Z.abs_eq by lia.
  destruct (Z.leb_spec ((now / 1000 + 900) * 1000) 8640000000000000); [reflexivity|lia].
Qed.

(** X7. On the deployment's own tokens the unverified check agrees with the
    verified one: [validateSSOToken] returns the payload exactly when
    [isTokenExpired] says [false] (the millisecond comparison of the one
    and the whole-second comparison of the other never disagree), and
    otherwise records the token as expired. *)
Theorem isTokenExpired_matches_validate env now now' payload :
  truthy (SSO_SECRET env) = true -> 0 <= now ->
  let token := jwt_sign payload (or_default (SSO_SECRET env) "") now in
  validateSSOToken env now' token =
    if isTokenExpired now' token
    then ([console_log "SSO token expired"], Returned None)
    else ([], Returned (Some (signed_payload payload now))).
Proof.
  intros Hs Hnow token.
  destruct (truthy_or_default _ "" Hs) as [_ Hk].
  rewrite (validateSSOToken_configured _ _ _ Hs).
  unfold token, jwt_sign.
  rewrite (proj1 (isTokenExpired_typed now' _ _ (jws_decode_sign _ _ Hk))).
  unfold jwt_verify. rewrite jws_decode_sign, jws_verify_sign by exact Hk.
  destruct (String.eqb_spec (jws_sign (signed_payload payload now)
                               (or_default (SSO_SECRET env) "")) "") as [E|_].
  { by apply jws_sign_nonempty in E. }
  unfold signed_payload, clock_seconds. cbn.
  change (expiresIn_ms / 1000) with 900.
  assert (0 <= now / 1000) by (apply Z.div_pos; lia).
  destruct (Z.eqb_spec (now / 1000 + 900) 0); [lia|].
  assert ((now / 1000 + 900 <=? now' / 1000) = ((now / 1000 + 900) * 1000 <=? now')) as ->.
  { pose proof (Z.div_mod now' 1000 ltac:(lia)).
    pose proof (Z.mod_pos_bound now' 1000 ltac:(lia)).
    destruct (Z.leb_spec (now / 1000 + 900) (now' / 1000)),
             (Z.leb_spec ((now / 1000 + 900) * 1000) now'); try reflexivity; lia. }
  destruct (_ <=? now'); reflexivity.
Qed.

End RedeemEdges.

Lemma single_Some_inv {A} (rows : list A) r :
  data (single rows) = Some r -> rows = [r].
Proof. destruct rows as [|x [|y l]]; cbn; congruence. Qed.

Lemma NoDup_all_equal {A} (l : list A) a :
  NoDup l -> a ∈ l -> (forall x, x ∈ l -> x = a) -> l = [a].
Proof.
  intros Hnd Ha Hall. destruct l as [|x l]; [by apply elem_of_nil in Ha|].
  assert (x = a) as -> by (apply Hall; left).
  destruct l as [|y l]; [done|].
  assert (y = a) as -> by (apply Hall; right; left).
  apply NoDup_cons in Hnd as [Hn _]. destruct Hn. left.
Qed.

Lemma active_rows_elem db s id t :
  (id, t) ∈ filter (fun it : string * Tenant => subdomain it.2 = s /\ status it.2 = active)
             (map_to_list (tenants db)) <->
  tenants db !! id = Some t /\ subdomain t = s /\ status t = active.
Proof.
  rewrite list_elem_of_filter, elem_of_map_to_list. cbn. tauto.
Qed.

(** X8. The subdomain lookup answers 200 with a tenant id only if that
    tenant exists, carries the requested (non-empty) subdomain and is
    active, and, when [INTERNAL_API_KEY] is set, only to a caller that
    presented it. *)
Theorem by_subdomain_only_active env key db req id :
  snd (GET_by_subdomain env key db req) =
    {| lookup_status := 200; lookup_body := LookupTenant id |} ->
  exists s t,
    search_subdomain req = Some s /\ s <> "" /\
    tenants db !! id = Some t /\ subdomain t = s /\ status t = active /\
    (truthy key = true -> x_api_key req = key).
Proof.
  unfold GET_by_subdomain. intros Hok.
  destruct (truthy key && negb (option_string_eqb (x_api_key req) (or_default key "")))
    eqn:Hgate; [discriminate|].
  destruct (truthy (search_subdomain req)) eqn:Hs; cbn [negb] in Hok; [|discriminate].
  destruct (truthy_or_default _ "" Hs) as [Hsub Hne].
  set (s := or_default (search_subdomain req) "") in *.
  destruct (getManagementAdmin env) as [c|e]; [|discriminate]. cbn [lift bind] in Hok.
  destruct (error (select_active_tenant_by_subdomain c db s)) eqn:He; [discriminate|].
  destruct (data (select_active_tenant_by_subdomain c db s)) as [r|] eqn:Hd; [|discriminate].
  cbn in Hok. injection Hok as <-.
  unfold select_active_tenant_by_subdomain in Hd. apply single_Some_inv in Hd.
  assert (r ∈ (fun it : string * Tenant => {| sel_id := it.1; sel_status := status it.2 |})
              <$> filter (fun it : string * Tenant => subdomain it.2 = s /\ status it.2 = active)
                    (map_to_list (tenants db))) as Hin by (rewrite Hd; left).
  apply list_elem_of_fmap in Hin as ([i t] & -> & Hin).
  apply active_rows_elem in Hin as (Ht & Hsd & Hst).
  exists s, t. repeat split; try done.
  intros Hk. rewrite Hk in Hgate. cbn in Hgate. apply negb_false_iff in Hgate.
  apply option_string_eqb_true in Hgate. rewrite Hgate.
  by destruct (truthy_or_default _ "" Hk).
Qed.

(** X9. With subdomains unique, as the schema declares them, the lookup of
    an active tenant's subdomain by a caller that passes the key check
    answers 200 with that tenant's id. *)
Theorem by_subdomain_finds_active env key db req s id t :
  (truthy key = true -> x_api_key req = key) ->
  search_subdomain req = Some s -> s <> "" ->
  truthy (MANAGEMENT_SUPABASE_SERVICE_ROLE_KEY env) = true ->
  subdomains_unique db ->
  tenants db !! id = Some t -> subdomain t = s -> status t = active ->
  GET_by_subdomain env key db req =
    ([], {| lookup_status := 200; lookup_body := LookupTenant id |}).
Proof.
  intros Hgate Hsub Hne Hkey Huniq Ht Hsd Hst.
  unfold GET_by_subdomain.
  assert (truthy key && negb (option_string_eqb (x_api_key req) (or_default key "")) = false)
    as ->.
  { destruct (truthy key) eqn:Hk; [|done]. cbn. apply negb_false_iff.
    apply option_string_eqb_true. rewrite (Hgate eq_refl).
    by destruct (truthy_or_default _ "" Hk). }
  rewrite Hsub. destruct (truthy_Some s Hne) as [-> ->]. cbn [negb].
  unfold getManagementAdmin. rewrite Hkey. cbn [negb lift bind].
  unfold select_active_tenant_by_subdomain.
  rewrite (NoDup_all_equal _ (id, t)).
  - reflexivity.
  - apply NoDup_filter, NoDup_map_to_list.
  - by apply active_rows_elem.
  - intros [j tj] (Hj & Hsj & _)%active_rows_elem.
    assert (j = id) as -> by (eapply Huniq; eauto; congruence).
    congruence.
Qed.

(** X10. A subdomain that belongs to no active tenant is answered 404
    "Tenant not found": a suspended or cancelled tenant looks exactly like
    a subdomain nobody holds. *)
Theorem by_subdomain_hides_inactive env key db req s :
  (truthy key = true -> x_api_key req = key) ->
  search_subdomain req = Some s -> s <> "" ->
  truthy (MANAGEMENT_SUPABASE_SERVICE_ROLE_KEY env) = true ->
  (forall id t, tenants db !! id = Some t -> subdomain t = s -> status t <> active) ->
  GET_by_subdomain env key db req =
    ([], {| lookup_status := 404; lookup_body := LookupError "Tenant not found" |}).
Proof.
  intros Hgate Hsub Hne Hkey Hnone.
  unfold GET_by_subdomain.
  assert (truthy key && negb (option_string_eqb (x_api_key req) (or_default key "")) = false)
    as ->.
  { destruct (truthy key) eqn:Hk; [|done]. cbn. apply negb_false_iff.
    apply option_string_eqb_true. rewrite (Hgate eq_refl).
    by destruct (truthy_or_default _ "" Hk). }
  rewrite Hsub. destruct (truthy_Some s Hne) as [-> ->]. cbn [negb].
  unfold getManagementAdmin. rewrite Hkey. cbn [negb lift bind].
  unfold select_active_tenant_by_subdomain.
  assert (filter (fun it : string * Tenant => subdomain it.2 = s /\ status it.2 = active)
            (map_to_list (tenants db)) = []) as ->.
  { apply elem_of_nil_inv. intros [j tj] (Hj & Hsj & Hact)%active_rows_elem.
    by eapply Hnone. }
  reflexivity.
Qed.

(** X11. The key check of the lookup: with [INTERNAL_API_KEY] set, a caller
    whose [x-api-key] header is missing or different gets 401 whatever it
    asks; with it unset or empty the header is ignored and the endpoint is
    open. *)
Theorem by_subdomain_api_key_gate env key db req :
  if truthy key then
    x_api_key req <> key ->
    GET_by_subdomain env key db req =
      ([], {| lookup_status := 401; lookup_body := LookupError "Unauthorized" |})
  else
    forall presented,
      GET_by_subdomain env key db
        {| x_api_key := presented; search_subdomain := search_subdomain req |} =
      GET_by_subdomain env key db req.
Proof.
  destruct (truthy key) eqn:Hk.
  - intros Hneq. unfold GET_by_subdomain. rewrite Hk. cbn [andb].
    destruct (option_string_eqb (x_api_key req) (or_default key "")) eqn:E; [|reflexivity].
    apply option_string_eqb_true in E. destruct Hneq. rewrite E.
    by destruct (truthy_or_default _ "" Hk).
  - intros presented. unfold GET_by_subdomain. rewrite Hk. reflexivity.
Qed.

Lemma dash_not_alnum : is_lower_or_digit dash = false.
Proof. reflexivity. Qed.

Lemma dash_eqb_alnum c : is_lower_or_digit c = true -> Ascii.eqb c dash = false.
Proof.
  intros Hc. destruct (Ascii.eqb_spec c dash) as [->|]; [|reflexivity].
  by rewrite dash_not_alnum in Hc.
Qed.

Lemma label_chars_replace s : label_chars (replace_non_alnum s) = true.
Proof.
  induction s as [|c s IH]; [reflexivity|]. cbn [replace_non_alnum label_chars].
  rewrite IH, andb_true_r.
  destruct (is_lower_or_digit c) eqn:Hc; [by rewrite Hc|reflexivity].
Qed.

Lemma label_chars_collapse s : label_chars s = true -> label_chars (collapse_dashes s) = true.
Proof.
  induction s as [|c s IH]; [done|]. cbn [label_chars collapse_dashes].
  intros [Hc Hs]%andb_true_iff. specialize (IH Hs).
  destruct (Ascii.eqb c dash) eqn:Hd.
  - destruct s as [|d s]; [reflexivity|].
    destruct (Ascii.eqb d dash); [exact IH|].
    cbn [label_chars]. rewrite IH. reflexivity.
  - cbn [label_chars]. rewrite Hd, IH. rewrite orb_false_r in Hc |- *. by rewrite Hc.
Qed.

Lemma collapse_head s :
  starts_with_dash (collapse_dashes s) = starts_with_dash s.
Proof.
  induction s as [|c s IH]; [reflexivity|]. cbn [collapse_dashes starts_with_dash].
  destruct (Ascii.eqb c dash) eqn:Hd.
  - destruct s as [|d s]; [reflexivity|].
    destruct (Ascii.eqb d dash) eqn:Hd'; [|reflexivity].
    rewrite IH. cbn. exact Hd'.
  - cbn. exact Hd.
Qed.

Lemma no_double_dash_cons c s :
  no_double_dash (String c s) = negb (Ascii.eqb c dash && starts_with_dash s) && no_double_dash s.
Proof. destruct s as [|d s]; cbn; [by rewrite andb_false_r|reflexivity]. Qed.

Lemma no_double_dash_collapse s : no_double_dash (collapse_dashes s) = true.
Proof.
  induction s as [|c s IH]; [reflexivity|]. cbn [collapse_dashes].
  destruct (Ascii.eqb c dash) eqn:Hd.
  - destruct s as [|d s]; [reflexivity|].
    destruct (Ascii.eqb d dash) eqn:Hd'; [exact IH|].
    rewrite no_double_dash_cons, IH, collapse_head. cbn. by rewrite Hd'.
  - rewrite no_double_dash_cons, IH, Hd. reflexivity.
Qed.

Lemma strip_leading_spec s :
  label_chars s = true -> no_double_dash s = true ->
  label_chars (strip_leading_dash s) = true /\
  no_double_dash (strip_leading_dash s) = true /\
  starts_with_dash (strip_leading_dash s) = false.
Proof.
  destruct s as [|c s]; [done|]. intros Hl Hn. cbn [strip_leading_dash].
  destruct (Ascii.eqb c dash) eqn:Hd.
  - rewrite no_double_dash_cons, Hd in Hn. cbn [label_chars] in Hl.
    apply andb_true_iff in Hl as [_ Hs]. apply andb_true_iff in Hn as [Hcd Hn].
    cbn in Hcd. apply negb_true_iff in Hcd. done.
  - split; [exact Hl|]. split; [exact Hn|]. cbn. exact Hd.
Qed.

Lemma strip_trailing_cons c s :
  s <> EmptyString -> strip_trailing_dash (String c s) = String c (strip_trailing_dash s).
Proof. destruct s; [done|reflexivity]. Qed.

Lemma ends_with_dash_cons c s :
  s <> EmptyString -> ends_with_dash (String c s) = ends_with_dash s.
Proof. destruct s; [done|reflexivity]. Qed.

Lemma strip_trailing_head s :
  starts_with_dash s = false -> starts_with_dash (strip_trailing_dash s) = false.
Proof.
  destruct s as [|c s]; [done|]. intros Hs. cbn in Hs.
  destruct s as [|d s]; cbn; [by rewrite Hs|exact Hs].
Qed.

Lemma strip_trailing_head_dash s :
  starts_with_dash (strip_trailing_dash s) = true -> starts_with_dash s = true.
Proof.
  intros H. destruct (starts_with_dash s) eqn:E; [done|].
  by rewrite strip_trailing_head in H.
Qed.

Lemma strip_trailing_spec s :
  label_chars s = true -> no_double_dash s = true ->
  label_chars (strip_trailing_dash s) = true /\
  no_double_dash (strip_trailing_dash s) = true /\
  ends_with_dash (strip_trailing_dash s) = false.
Proof.
  induction s as [|c s IH]; [done|]. intros Hl Hn.
  pose proof Hl as Hl0.
  cbn [label_chars] in Hl. apply andb_true_iff in Hl as [Hc Hs].
  rewrite no_double_dash_cons in Hn. apply andb_true_iff in Hn as [Hcd Hn].
  destruct s as [|d s].
  { cbn [strip_trailing_dash]. destruct (Ascii.eqb c dash) eqn:Hd; [done|].
    split; [exact Hl0|]. split; [reflexivity|]. cbn. exact Hd. }
  specialize (IH Hs Hn) as (IH1 & IH2 & IH3).
  rewrite strip_trailing_cons by done.
  cbn [label_chars]. rewrite Hc, IH1. split; [done|].
  rewrite no_double_dash_cons, IH2.
  destruct (strip_trailing_dash (String d s)) as [|x r] eqn:E.
  - split; [cbn; by rewrite andb_false_r|].
    (* the tail was a lone dash: c itself must not be a dash *)
    destruct s as [|e s]; [|cbn in E; destruct s; discriminate].
    cbn in E. destruct (Ascii.eqb d dash) eqn:Hd; [|discriminate].
    cbn in Hcd. rewrite Hd, andb_true_r in Hcd. cbn. by apply negb_true_iff in Hcd.
  - rewrite ends_with_dash_cons by done. split; [|exact IH3].
    rewrite andb_true_r. apply negb_true_iff.
    destruct (Ascii.eqb c dash) eqn:Hd; [|done]. cbn [andb].
    destruct (starts_with_dash (String x r)) eqn:Hst; [|done].
    rewrite <- E in Hst. apply strip_trailing_head_dash in Hst.
    cbn in Hcd, Hst. rewrite Hst in Hcd. done.
Qed.

(** X12. The subdomain generated from a project name is always a
    well-formed label: only lower-case letters, digits and dashes, no two
    dashes in a row, no dash at either end. *)
Theorem generate_subdomain_label name :
  subdomain_label (generate_subdomain name) = true.
Proof.
  unfold generate_subdomain, subdomain_label.
  set (s := collapse_dashes (replace_non_alnum (toLowerCase name))).
  assert (label_chars s = true) as Hl by apply label_chars_collapse, label_chars_replace.
  assert (no_double_dash s = true) as Hn by apply no_double_dash_collapse.
  destruct (strip_leading_spec s Hl Hn) as (Hl1 & Hn1 & Hh1).
  destruct (strip_trailing_spec _ Hl1 Hn1) as (Hl2 & Hn2 & He2).
  rewrite Hl2, Hn2, He2, (strip_trailing_head _ Hh1). reflexivity.
Qed.

Lemma lower_or_digit_not_upper c : is_lower_or_digit c = true -> is_upper c = false.
Proof.
  unfold is_lower_or_digit, is_upper.
  destruct (Nat.leb_spec 65 (nat_of_ascii c)), (Nat.leb_spec (nat_of_ascii c) 90),
           (Nat.leb_spec 97 (nat_of_ascii c)), (Nat.leb_spec (nat_of_ascii c) 122),
           (Nat.leb_spec 48 (nat_of_ascii c)), (Nat.leb_spec (nat_of_ascii c) 57);
    cbn; try done; lia.
Qed.

Lemma toLowerCase_label s : label_chars s = true -> toLowerCase s = s.
Proof.
  induction s as [|c s IH]; [done|]. cbn [label_chars toLowerCase].
  intros [Hc Hs]%andb_true_iff. rewrite (IH Hs).
  apply orb_true_iff in Hc as [Hc|Hc].
  - by rewrite (lower_or_digit_not_upper _ Hc).
  - apply Ascii.eqb_eq in Hc as ->. reflexivity.
Qed.

Lemma replace_non_alnum_label s : label_chars s = true -> replace_non_alnum s = s.
Proof.
  induction s as [|c s IH]; [done|]. cbn [label_chars replace_non_alnum].
  intros [Hc Hs]%andb_true_iff. rewrite (IH Hs).
  destruct (is_lower_or_digit c); [done|]. cbn in Hc.
  by apply Ascii.eqb_eq in Hc as ->.
Qed.

Lemma collapse_dashes_id s : no_double_dash s = true -> collapse_dashes s = s.
Proof.
  induction s as [|c s IH]; [done|]. rewrite no_double_dash_cons.
  intros [Hc Hs]%andb_true_iff. cbn [collapse_dashes]. rewrite (IH Hs).
  destruct (Ascii.eqb_spec c dash) as [->|]; [|done].
  destruct s as [|d s]; [done|]. cbn in Hc.
  by destruct (Ascii.eqb d dash).
Qed.

Lemma strip_leading_id s : starts_with_dash s = false -> strip_leading_dash s = s.
Proof. destruct s as [|c s]; [done|]. cbn. by intros ->. Qed.

Lemma strip_trailing_id s : ends_with_dash s = false -> strip_trailing_dash s = s.
Proof.
  induction s as [|c s IH]; [done|].
  destruct s as [|d s]; [cbn; by intros ->|].
  rewrite ends_with_dash_cons, strip_trailing_cons by done.
  intros Hs. by rewrite (IH Hs).
Qed.

(** X13. A well-formed label is its own generated subdomain; so generating
    twice is generating once. *)
Theorem generate_subdomain_fixpoint s :
  subdomain_label s = true -> generate_subdomain s = s.
Proof.
  unfold subdomain_label, generate_subdomain.
  intros [[[Hl Hn]%andb_true_iff Hh%negb_true_iff]%andb_true_iff
            He%negb_true_iff]%andb_true_iff.
  rewrite (toLowerCase_label _ Hl), (replace_non_alnum_label _ Hl),
    (collapse_dashes_id _ Hn), (strip_leading_id _ Hh).
  by apply strip_trailing_id.
Qed.

Lemma lower_alnum c :
  is_lower_or_digit (if is_upper c then ascii_of_nat (nat_of_ascii c + 32) else c) =
    is_lower_or_digit c || is_upper c.
Proof. destruct c as [[] [] [] [] [] [] [] []]; reflexivity. Qed.

Lemma all_dashes_replace name :
  all_dashes (replace_non_alnum (toLowerCase name)) = negb (has_alnum name).
Proof.
  induction name as [|c s IH]; [reflexivity|].
  cbn [toLowerCase replace_non_alnum all_dashes has_alnum].
  rewrite IH. pose proof (lower_alnum c) as Hl.
  rewrite <- Hl.
  destruct (is_lower_or_digit _) eqn:E.
  - by rewrite (dash_eqb_alnum _ E).
  - reflexivity.
Qed.

Lemma collapse_all_dashes s :
  all_dashes s = true ->
  collapse_dashes s = EmptyString \/ collapse_dashes s = String dash EmptyString.
Proof.
  induction s as [|c s IH]; [by left|]. cbn [all_dashes collapse_dashes].
  intros [Hc Hs]%andb_true_iff. rewrite Hc.
  destruct s as [|d s]; [by right|].
  pose proof Hs as Hs'. cbn [all_dashes] in Hs'.
  apply andb_true_iff in Hs' as [Hd _]. rewrite Hd. exact (IH Hs).
Qed.

Lemma collapse_keeps_non_dash s :
  all_dashes s = false -> all_dashes (collapse_dashes s) = false.
Proof.
  induction s as [|c s IH]; [done|]. cbn [all_dashes collapse_dashes].
  destruct (Ascii.eqb c dash) eqn:Hc; cbn [andb].
  - intros Hs. specialize (IH Hs). destruct s as [|d s]; [done|].
    destruct (Ascii.eqb d dash); [exact IH|]. cbn. exact IH.
  - intros _. cbn. by rewrite Hc.
Qed.

Lemma strip_leading_keeps_non_dash s :
  all_dashes s = false -> all_dashes (strip_leading_dash s) = false.
Proof.
  destruct s as [|c s]; [done|]. cbn.
  destruct (Ascii.eqb c dash) eqn:Hc; cbn; [done|]. by rewrite Hc.
Qed.

Lemma strip_trailing_keeps_non_dash s :
  all_dashes s = false -> all_dashes (strip_trailing_dash s) = false.
Proof.
  induction s as [|c s IH]; [done|].
  destruct s as [|d s].
  { cbn. destruct (Ascii.eqb c dash) eqn:Hc; cbn; [done|]. by rewrite Hc. }
  rewrite strip_trailing_cons by done. cbn [all_dashes].
  destruct (Ascii.eqb c dash); cbn [andb]; [exact IH|done].
Qed.

(** X14. The generated subdomain of an ASCII name is empty exactly when the
    name has no letter and no digit. *)
Theorem generate_subdomain_empty name :
  is_ascii name = true ->
  generate_subdomain name = EmptyString <-> has_alnum name = false.
Proof.
  intros _. unfold generate_subdomain.
  pose proof (all_dashes_replace name) as Hall.
  set (r := replace_non_alnum (toLowerCase name)) in *.
  split.
  - intros Hempty. destruct (has_alnum name); [|done]. cbn in Hall.
    apply collapse_keeps_non_dash, strip_leading_keeps_non_dash,
      strip_trailing_keeps_non_dash in Hall.
    by rewrite Hempty in Hall.
  - intros Hna. rewrite Hna in Hall. cbn in Hall.
    destruct (collapse_all_dashes r Hall) as [-> | ->]; reflexivity.
Qed.

Lemma db_eta (db : ManagementDb) :
  {| tenants := tenants db; tenant_users := tenant_users db |} = db.
Proof. by destruct db. Qed.

Lemma subdomain_rows_nil db s :
  (forall i t, tenants db !! i = Some t -> subdomain t <> s) ->
  filter (fun it : string * Tenant => subdomain it.2 = s) (map_to_list (tenants db)) = [].
Proof.
  intros Hfree. apply elem_of_nil_inv. intros [i t] [Hs Hin]%list_elem_of_filter.
  apply elem_of_map_to_list in Hin. by eapply Hfree.
Qed.

Section CreateFacts.
Context {jws : Jws}.
Variable parse_base64_json : string -> Outcome AuthPayload.
Variable initializeTenantData : string -> Eff unit.

Variables (env : Env) (new_id : string) (db : ManagementDb) (now : Z) (req : CreateRequest).
Variables (header segment userId projectName : string).
Variables (principal : AuthPayload) (b : CreateBody).

Hypothesis Hheader : create_authorization req = Some header.
Hypothesis Hsegment :
  nth_error (split_dot (replace_first "Bearer " "" header)) 1 = Some segment.
Hypothesis Hsegment_ne : segment <> "".
Hypothesis Hparse : parse_base64_json segment = Returned principal.
Hypothesis Hsub : sub principal = Some userId.
Hypothesis HuserId : userId <> "".
Hypothesis Hkey : truthy (MANAGEMENT_SUPABASE_SERVICE_ROLE_KEY env) = true.
Hypothesis Hjson : create_json req = Returned b.
Hypothesis Hname : body_name b = Some projectName.
Hypothesis HprojectName : projectName <> "".

Let chosen : string := or_default (body_subdomain b) (generate_subdomain projectName).

Let row : Tenant :=
  {| name := projectName; subdomain := chosen; owner_id := userId;
     status := active; plan := free |}.

Let provisioned : ManagementDb :=
  {| tenants := <[new_id := row]> (tenants db);
     tenant_users := <[(new_id, userId) := {| role := owner |}]> (tenant_users db) |}.

Hypothesis Hfree : forall i t, tenants db !! i = Some t -> subdomain t <> chosen.
Hypothesis Hfresh : tenants db !! new_id = None.
Hypothesis Hrefs : grants_reference_tenants db.

Lemma POST_create_inserted :
  POST_create parse_base64_json initializeTenantData env new_id db now req =
    match initializeTenantData new_id with
    | (l, Thrown error) =>
        (l ++ [console_error "Failed to initialize tenant data:" (message error)],
         respond_create (CreateError "Failed to initialize project data") 500,
         db)
    | (l, Returned _) =>
        match generateAccessURL env now new_id userId
                (or_default (auth_email principal) placeholder_email) with
        | Thrown e =>
            (l ++ [console_error "Project creation error:" (message e)],
             respond_create (CreateError "Internal server error") 500, provisioned)
        | Returned accessUrl =>
            (l ++ [console_log ("Created tenant: " +:+ new_id +:+ " (" +:+ projectName
                                +:+ ") for user: " +:+ userId)],
             respond_create (CreateCreated new_id row accessUrl) 201, provisioned)
        end
    end.
Proof.
  assert (header <> "") as Hne.
  { intros ->. cbn in Hsegment. discriminate. }
  assert (tenant_users db !! (new_id, userId) = None) as Hnogrant.
  { destruct (tenant_users db !! (new_id, userId)) as [g|] eqn:E; [|done].
    apply Hrefs in E as [t Ht]. congruence. }
  unfold POST_create. rewrite Hheader.
  destruct (truthy_Some header Hne) as [-> ->]. cbn [negb].
  rewrite Hsegment.
  destruct (truthy_Some segment Hsegment_ne) as [-> ->]. cbn [negb].
  rewrite Hparse, Hsub.
  destruct (truthy_Some userId HuserId) as [-> ->]. cbn [negb].
  unfold getManagementAdmin. rewrite Hkey. cbn [negb].
  rewrite Hjson, Hname.
  destruct (truthy_Some projectName HprojectName) as [-> ->]. cbn [negb].
  fold chosen. unfold select_tenant_by_subdomain, insert_tenant.
  cbn [subdomain]. rewrite (subdomain_rows_nil db chosen Hfree), Hfresh.
  cbn [fmap list_fmap single data error].
  unfold insert_tenant_user. cbn [tenants tenant_users].
  rewrite lookup_insert_eq, Hnogrant. cbn [snd]. fold row. fold provisioned.
  destruct (initializeTenantData new_id) as [l [u0|error]].
  - destruct (generateAccessURL _ _ _ _ _); reflexivity.
  - f_equal. unfold delete_tenant, provisioned. cbn [tenants tenant_users].
    rewrite lookup_insert_eq, delete_insert_id by exact Hfresh.
    rewrite <- (db_eta db) at 3. f_equal.
    apply map_eq. intros [t u]. rewrite map_lookup_filter.
    destruct (decide ((t, u) = (new_id, userId))) as [[= -> ->]|Hneq].
    + rewrite lookup_insert_eq, Hnogrant. cbn. by rewrite option_guard_False by (cbn; tauto).
    + rewrite lookup_insert_ne by done.
      destruct (tenant_users db !! (t, u)) as [g|] eqn:E; [|done]. cbn.
      rewrite option_guard_True; [done|]. cbn. intros ->.
      apply Hrefs in E as [x Hx]. congruence.
Qed.

(** Project creation, when all goes well. *)
Lemma POST_create_created l :
  initializeTenantData new_id = (l, Returned tt) ->
  truthy (SSO_SECRET env) = true ->
  POST_create parse_base64_json initializeTenantData env new_id db now req =
    (l ++ [console_log ("Created tenant: " +:+ new_id +:+ " (" +:+ projectName
                        +:+ ") for user: " +:+ userId)],
     respond_create
       (CreateCreated new_id row
          (or_default (NEXT_PUBLIC_CLOUD_DEPLOYMENT_URL env) "https://cloud.ycode.app"
             +:+ "?token=" +:+
           jwt_sign {| tenant_id := new_id; user_id := userId;
                       email := or_default (auth_email principal) placeholder_email |}
             (or_default (SSO_SECRET env) "") now)) 201,
     provisioned).
Proof.
  intros Hinit Hs. rewrite POST_create_inserted, Hinit.
  unfold generateAccessURL, generateSSOToken. rewrite Hs. reflexivity.
Qed.

(** X15. Project creation, when all goes well (authenticated principal,
    configured deployment, an ASCII name, a subdomain nobody holds,
    provisioning succeeds): the answer is 201 with the new row and an access
    URL, and the store is the old store plus the tenant (active, plan free,
    owned by the principal, subdomain as requested or generated from the
    name) and the principal's owner grant. *)
Theorem create_provisions l :
  is_ascii projectName = true ->
  initializeTenantData new_id = (l, Returned tt) ->
  truthy (SSO_SECRET env) = true ->
  POST_create parse_base64_json initializeTenantData env new_id db now req =
    (l ++ [console_log ("Created tenant: " +:+ new_id +:+ " (" +:+ projectName
                        +:+ ") for user: " +:+ userId)],
     respond_create
       (CreateCreated new_id row
          (or_default (NEXT_PUBLIC_CLOUD_DEPLOYMENT_URL env) "https://cloud.ycode.app"
             +:+ "?token=" +:+
           jwt_sign {| tenant_id := new_id; user_id := userId;
                       email := or_default (auth_email principal) placeholder_email |}
             (or_default (SSO_SECRET env) "") now)) 201,
     provisioned).
Proof.
  intros _ Hinit Hs. rewrite POST_create_inserted, Hinit.
  unfold generateAccessURL, generateSSOToken. rewrite Hs. reflexivity.
Qed.

(** X16. The access URL of a created project (ASCII name) works: its token,
    presented to the validate handler against the store the creation left,
    before it expires, is answered 200 with the new tenant, the creator,
    role owner and plan free. *)
Theorem create_then_redeem l now' req' b' :
  is_ascii projectName = true ->
  initializeTenantData new_id = (l, Returned tt) ->
  truthy (SSO_SECRET env) = true ->
  json req' = Returned b' ->
  body_token b' =
    Some (jwt_sign {| tenant_id := new_id; user_id := userId;
                      email := or_default (auth_email principal) placeholder_email |}
            (or_default (SSO_SECRET env) "") now) ->
  clock_seconds now' < clock_seconds now + 15 * 60 ->
  POST_validate env
    (POST_create parse_base64_json initializeTenantData env new_id db now req).2
    now' req' =
    ([], NextResponse_json
           (ValidatedBody new_id userId
              (or_default (auth_email principal) placeholder_email) owner free) 200).
Proof.
  intros _ Hinit Hs Hj' Hb' Hnow. rewrite (POST_create_created l Hinit Hs). cbn [snd].
  destruct (truthy_or_default _ "" Hs) as [_ Hk].
  set (payload := {| tenant_id := new_id; user_id := userId;
                     email := or_default (auth_email principal) placeholder_email |}) in *.
  assert (jwt_sign payload (or_default (SSO_SECRET env) "") now <> "") as Hne
    by (by apply jws_sign_nonempty).
  rewrite (POST_validate_steps _ _ _ _ _ _ Hj' Hb' Hne).
  rewrite (validateSSOToken_configured _ _ _ Hs).
  rewrite jwt_verify_sign by assumption.
  unfold getManagementAdmin. rewrite Hkey.
  cbn [negb signed_payload claims payload tenant_id user_id email provisioned
       tenants tenant_users].
  by rewrite !lookup_insert_eq.
Qed.

(** X17. When provisioning the tenant's data fails (the project's name
    being ASCII), the handler answers 500 "Failed to initialize project
    data" and leaves the management store exactly as it found it: the
    tenant row is deleted and its grant goes with it. *)
Theorem create_rollback l error :
  is_ascii projectName = true ->
  initializeTenantData new_id = (l, Thrown error) ->
  POST_create parse_base64_json initializeTenantData env new_id db now req =
    (l ++ [console_error "Failed to initialize tenant data:" (message error)],
     respond_create (CreateError "Failed to initialize project data") 500,
     db).
Proof. intros _ Hinit. by rewrite POST_create_inserted, Hinit. Qed.

(** X18. Without [SSO_SECRET] project creation (of an ASCII name) answers
    500 "Internal server error", yet the tenant and the owner grant stay in
    the store: the access URL is built last, and its failure undoes
    nothing. *)
Theorem create_without_secret l :
  is_ascii projectName = true ->
  initializeTenantData new_id = (l, Returned tt) ->
  truthy (SSO_SECRET env) = false ->
  POST_create parse_base64_json initializeTenantData env new_id db now req =
    (l ++ [console_error "Project creation error:" "SSO_SECRET not configured"],
     respond_create (CreateError "Internal server error") 500,
     provisioned) /\
  tenants provisioned !! new_id = Some row /\
  tenant_users provisioned !! (new_id, userId) = Some {| role := owner |}.
Proof.
  intros _ Hinit Hs. rewrite POST_create_inserted, Hinit.
  unfold generateAccessURL, generateSSOToken. rewrite Hs. cbn.
  split; [reflexivity|]. split; apply lookup_insert_eq.
Qed.

End CreateFacts.

Lemma same_elsewhere_refl id d : same_elsewhere id d d.
Proof. by split. Qed.

Lemma same_elsewhere_trans id d1 d2 d3 :
  same_elsewhere id d1 d2 -> same_elsewhere id d2 d3 -> same_elsewhere id d1 d3.
Proof.
  intros [H1 H2] [H3 H4]. split; intros.
  - rewrite H3, H1; done.
  - rewrite H4, H2; done.
Qed.

Lemma insert_tenant_elsewhere c d id r : same_elsewhere id d (insert_tenant c d id r).2.
Proof.
  unfold insert_tenant.
  destruct (tenants d !! id); [apply same_elsewhere_refl|].
  destruct (filter _ _); [|apply same_elsewhere_refl].
  split; cbn; [|done]. intros i Hi. by rewrite lookup_insert_ne.
Qed.

Lemma insert_tenant_user_elsewhere c d id u r :
  same_elsewhere id d (insert_tenant_user c d id u r).2.
Proof.
  unfold insert_tenant_user.
  destruct (tenants d !! id); [|apply same_elsewhere_refl].
  destruct (tenant_users d !! (id, u)); [apply same_elsewhere_refl|].
  split; cbn; [done|]. intros t' u' Ht. rewrite lookup_insert_ne; [done|congruence].
Qed.

Lemma delete_tenant_elsewhere c d id : same_elsewhere id d (delete_tenant c d id).
Proof.
  unfold delete_tenant.
  destruct (tenants d !! id); [|apply same_elsewhere_refl].
  split; cbn.
  - intros i Hi. by rewrite lookup_delete_ne.
  - intros t' u Ht. rewrite map_lookup_filter.
    destruct (tenant_users d !! (t', u)); [|done]. cbn.
    by rewrite option_guard_True.
Qed.

Lemma insert_tenant_data_id c d id r i t :
  data (insert_tenant c d id r).1 = Some (i, t) -> i = id.
Proof.
  unfold insert_tenant.
  destruct (tenants d !! id); [done|]. destruct (filter _ _); [|done].
  cbn. congruence.
Qed.

Section CreateFrame.
Context {jws : Jws}.
Variable parse_base64_json : string -> Outcome AuthPayload.
Variable initializeTenantData : string -> Eff unit.

(** X20. Whatever the request and whatever fails, project creation leaves
    every other tenant and every other tenant's grants untouched; and when
    it answers 400, 401 or 409 it has written nothing at all. *)
Theorem create_touches_one_tenant env new_id db now req :
  let '(_, response, db') :=
    POST_create parse_base64_json initializeTenantData env new_id db now req in
  same_elsewhere new_id db db' /\
  (In (create_status response) [400; 401; 409] -> db' = db).
Proof.
  unfold POST_create.
  destruct (truthy (create_authorization req)); cbn [negb];
    [|split; [apply same_elsewhere_refl|done]].
  destruct (truthy (nth_error _ 1)); cbn [negb];
    [|split; [apply same_elsewhere_refl|done]].
  destruct (parse_base64_json _) as [payload|e];
    [|split; [apply same_elsewhere_refl|done]].
  destruct (truthy (sub payload)); cbn [negb];
    [|split; [apply same_elsewhere_refl|done]].
  destruct (getManagementAdmin env) as [c|e]; [|split; [apply same_elsewhere_refl|done]].
  destruct (create_json req) as [b|e]; [|split; [apply same_elsewhere_refl|done]].
  destruct (truthy (body_name b)); cbn [negb];
    [|split; [apply same_elsewhere_refl|done]].
  destruct (data (select_tenant_by_subdomain _ _ _));
    [split; [apply same_elsewhere_refl|done]|].
  match goal with |- context [insert_tenant ?c ?d ?i ?r] =>
    pose proof (insert_tenant_elsewhere c d i r) as H1;
    pose proof (insert_tenant_data_id c d i r) as Hid;
    destruct (insert_tenant c d i r) as [inserted db1] end.
  cbn [fst snd] in H1, Hid.
  destruct (error inserted); [split; [exact H1|cbn; intros [|[|[|[]]]]; discriminate]|].
  destruct (data inserted) as [[tid tenant]|];
    [|split; [exact H1|cbn; intros [|[|[|[]]]]; discriminate]].
  specialize (Hid _ _ eq_refl) as ->.
  match goal with |- context [insert_tenant_user ?c ?d ?i ?u ?r] =>
    pose proof (insert_tenant_user_elsewhere c d i u r) as H2;
    set (db2 := (insert_tenant_user c d i u r).2) in * end.
  pose proof (same_elsewhere_trans _ _ _ _ H1 H2) as H12.
  destruct (initializeTenantData new_id) as [l [u0|error]].
  - destruct (generateAccessURL _ _ _ _ _);
      (split; [exact H12|cbn; intros [|[|[|[]]]]; discriminate]).
  - split; [|cbn; intros [|[|[|[]]]]; discriminate].
    eapply same_elsewhere_trans; [exact H12|apply delete_tenant_elsewhere].
Qed.

End CreateFrame.

Section CreateConflict.
Context {jws : Jws}.
Variable parse_base64_json : string -> Outcome AuthPayload.
Variable initializeTenantData : string -> Eff unit.

(** X19. With subdomains unique, asking for a subdomain some tenant already
    holds, or generating one from an ASCII name, is answered 409 "Subdomain
    already taken" and nothing is written. *)
Theorem create_conflict env new_id db now req header segment principal userId b
    projectName holder taken :
  create_authorization req = Some header ->
  nth_error (split_dot (replace_first "Bearer " "" header)) 1 = Some segment ->
  segment <> "" ->
  parse_base64_json segment = Returned principal ->
  sub principal = Some userId -> userId <> "" ->
  truthy (MANAGEMENT_SUPABASE_SERVICE_ROLE_KEY env) = true ->
  create_json req = Returned b ->
  body_name b = Some projectName -> projectName <> "" ->
  is_ascii projectName = true ->
  subdomains_unique db ->
  tenants db !! holder = Some taken ->
  subdomain taken = or_default (body_subdomain b) (generate_subdomain projectName) ->
  POST_create parse_base64_json initializeTenantData env new_id db now req =
    ([], respond_create (CreateError "Subdomain already taken") 409, db).
Proof.
  intros Hheader Hsegment Hsne Hparse Hsub Hune Hkey Hjson Hname Hnne _ Huniq Hholder Htaken.
  assert (header <> "") as Hne.
  { intros ->. cbn in Hsegment. discriminate. }
  unfold POST_create. rewrite Hheader.
  destruct (truthy_Some header Hne) as [-> ->]. cbn [negb].
  rewrite Hsegment.
  destruct (truthy_Some segment Hsne) as [-> ->]. cbn [negb].
  rewrite Hparse, Hsub.
  destruct (truthy_Some userId Hune) as [-> ->]. cbn [negb].
  unfold getManagementAdmin. rewrite Hkey. cbn [negb].
  rewrite Hjson, Hname.
  destruct (truthy_Some projectName Hnne) as [-> ->]. cbn [negb].
  unfold select_tenant_by_subdomain.
  rewrite (NoDup_all_equal _ (holder, taken)).
  - reflexivity.
  - apply NoDup_filter, NoDup_map_to_list.
  - apply list_elem_of_filter. split; [exact Htaken|]. by apply elem_of_map_to_list.
  - intros [j tj] [Hs Hj%elem_of_map_to_list]%list_elem_of_filter. cbn in Hs.
    assert (j = holder) as -> by (eapply Huniq; eauto; congruence).
    congruence.
Qed.

End CreateConflict.

(** ** The placeholder email *)

Section Placeholder.
Context {jws : Jws}.
Variable parse_base64_json : string -> Outcome AuthPayload.
Variable initializeTenantData : string -> Eff unit.

(** A successful redemption returns what was signed into the token. *)
Lemma POST_validate_200_signed payload secret now env' db' now' req' b' t u e r pl :
  secret <> "" ->
  json req' = Returned b' ->
  body_token b' = Some (jwt_sign payload secret now) ->
  snd (POST_validate env' db' now' req') =
    NextResponse_json (ValidatedBody t u e r pl) 200 ->
  t = tenant_id payload /\ u = user_id payload /\ e = email payload.
Proof.
  intros Hk Hj' Hb' Hok. destruct payload as [tenantId userId mail].
  destruct (POST_validate_200_inv _ _ _ _ _ _ _ _ _ Hok)
    as (b0 & token0 & p & _ & _ & Hj0 & Hb0 & _ & Hv & _ & Hp & _).
  assert (token0 = jwt_sign {| tenant_id := tenantId; user_id := userId; email := mail |}
                     secret now) as -> by congruence.
  apply validateSSOToken_Some_inv in Hv as (_ & _ & Hv).
  apply jwt_verify_inr in Hv as (_ & Hd & _).
  unfold jwt_sign in Hd. rewrite jws_decode_sign in Hd by exact Hk.
  injection Hd as <-. cbn in Hp. by injection Hp as <- <- <-.
Qed.

(** C10. Tokens are minted in two places, the generate handler and project
    creation (through [generateAccessURL]). When the principal's
    primary-auth token carries no email claim, each of them mints the token
    with the email "user@ycode.app": the generate handler for the tenant
    the body names, project creation for the tenant it has just inserted
    (the request giving the subdomain, or else an ASCII name to generate it
    from). And every successful redemption of such a token, in whatever
    deployment and store, returns that same address. *)
Theorem mint_placeholder_email env now header segment principal userId :
  nth_error (split_dot (replace_first "Bearer " "" header)) 1 = Some segment ->
  segment <> "" ->
  parse_base64_json segment = Returned principal ->
  sub principal = Some userId -> userId <> "" ->
  truthy (MANAGEMENT_SUPABASE_SERVICE_ROLE_KEY env) = true ->
  truthy (SSO_SECRET env) = true ->
  auth_email principal = None ->
  let carries_placeholder token tenantId :=
    (exists p,
        jwt_decode token = Returned (Some p) /\
        claims p = {| tenant_id := tenantId; user_id := userId;
                      email := "user@ycode.app" |}) /\
    (forall env' db' now' req' b' t u e r pl,
        json req' = Returned b' -> body_token b' = Some token ->
        snd (POST_validate env' db' now' req') =
          NextResponse_json (ValidatedBody t u e r pl) 200 ->
        t = tenantId /\ u = userId /\ e = "user@ycode.app") in
  (forall db req b tenantId grant,
      authorization req = Some header ->
      json req = Returned b -> body_tenant_id b = Some tenantId -> tenantId <> "" ->
      tenant_users db !! (tenantId, userId) = Some grant ->
      exists token url,
        POST_generate parse_base64_json env db now req =
          ([], NextResponse_json (TokenBody token url) 200) /\
        carries_placeholder token tenantId) /\
  (forall new_id db req b projectName l,
      create_authorization req = Some header ->
      create_json req = Returned b ->
      body_name b = Some projectName -> projectName <> "" ->
      truthy (body_subdomain b) = true \/ is_ascii projectName = true ->
      (forall i t, tenants db !! i = Some t ->
                   subdomain t <>
                     or_default (body_subdomain b) (generate_subdomain projectName)) ->
      tenants db !! new_id = None ->
      grants_reference_tenants db ->
      initializeTenantData new_id = (l, Returned tt) ->
      exists token row,
        (POST_create parse_base64_json initializeTenantData env new_id db now req).1.2 =
          respond_create
            (CreateCreated new_id row
               (or_default (NEXT_PUBLIC_CLOUD_DEPLOYMENT_URL env) "https://cloud.ycode.app"
                  +:+ "?token=" +:+ token)) 201 /\
        carries_placeholder token new_id).
Proof.
  intros Hsegment Hsne Hparse Hsub Hune Hkey Hsecret Hmail carries_placeholder.
  destruct (truthy_or_default _ "" Hsecret) as [_ Hk].
  assert (Hcarries : forall tenantId,
             carries_placeholder
               (jwt_sign {| tenant_id := tenantId; user_id := userId;
                            email := or_default (auth_email principal) placeholder_email |}
                  (or_default (SSO_SECRET env) "") now) tenantId).
  { intros tenantId. rewrite Hmail. cbn [or_default]. split.
    - eexists. split.
      + unfold jwt_decode, jwt_sign. rewrite jws_decode_sign by exact Hk. reflexivity.
      + reflexivity.
    - intros env' db' now' req' b' t u e r pl Hj' Hb' Hok.
      exact (POST_validate_200_signed _ _ _ _ _ _ _ _ _ _ _ _ _ Hk Hj' Hb' Hok). }
  split.
  - intros db req b tenantId grant Hheader Hjson Htenant Htne Hgrant.
    pose proof (POST_generate_granted parse_base64_json env db now req header segment
                  userId tenantId principal b grant Hheader Hsegment Hsne Hparse Hsub
                  Hune Hjson Htenant Htne Hkey Hsecret Hgrant (tenants db)) as Hgen.
    replace (with_tenants db (tenants db)) with db in Hgen by (by destruct db).
    eexists _, _. split; [exact Hgen|]. apply Hcarries.
  - intros new_id db req b projectName l Hheader Hjson Hname Hnne _ Hfree Hfresh Hrefs Hinit.
    rewrite (POST_create_created parse_base64_json initializeTenantData env new_id db now
               req header segment userId projectName principal b Hheader Hsegment Hsne
               Hparse Hsub Hune Hkey Hjson Hname Hnne Hfree Hfresh Hrefs l Hinit Hsecret).
    eexists _, _. split; [reflexivity|]. apply Hcarries.
Qed.

End Placeholder.

(** ** Usage summary *)

Lemma fold_left_sizes l acc :
  fold_left (fun total size => total + number_or_zero size) l acc =
    acc + fold_right (fun size total => number_or_zero size + total) 0 l.
Proof.
  revert acc. induction l as [|s l IH]; intros acc; cbn; [lia|].
  rewrite IH. lia.
Qed.

Lemma sizes_nonneg l :
  Forall (fun size => 0 <= number_or_zero size) l ->
  0 <= fold_right (fun size total => number_or_zero size + total) 0 l.
Proof. induction 1; cbn; lia. Qed.

(** X22. [getTenantUsage] reports storage to the nearest megabyte: for
    non-negative sizes (a missing size counting as zero) that add up to
    less than [2^53] bytes, the figure is non-negative and within half a
    mebibyte of the total, so a tenant with less than 512 KiB of assets
    shows 0. *)
Theorem getTenantUsage_storage pageCount assetCount sizes :
  Forall (fun size => 0 <= number_or_zero size) sizes ->
  let total := fold_right (fun size total => number_or_zero size + total) 0 sizes in
  total < 2 ^ 53 ->
  let mb := storage_mb (getTenantUsage pageCount assetCount (Some sizes)) in
  0 <= mb /\
  mb * 1048576 - 524288 <= total < mb * 1048576 + 524288 /\
  (total < 524288 -> mb = 0).
Proof.
  intros Hpos total _ mb.
  assert (mb = (2 * total + 1048576) / 2097152) as Hmb.
  { unfold mb, getTenantUsage, storageBytes, Math_round_div. cbn [storage_mb].
    rewrite fold_left_sizes. reflexivity. }
  pose proof (sizes_nonneg _ Hpos) as Ht. fold total in Ht.
  pose proof (Z.div_mod (2 * total + 1048576) 2097152 ltac:(lia)) as Hdm.
  pose proof (Z.mod_pos_bound (2 * total + 1048576) 2097152 ltac:(lia)) as Hb.
  rewrite <- Hmb in Hdm.
  split; [|split].
  - rewrite Hmb. apply Z.div_pos; lia.
  - lia.
  - intros Hsmall. rewrite Hmb. apply Z.div_small. lia.
Qed.


(** ** The schema's constraints are kept *)




Section CreateSchema.
Context {jws : Jws}.
Variable parse_base64_json : string -> Outcome AuthPayload.
Variable initializeTenantData : string -> Eff unit.


End CreateSchema.



(** ** The further properties at work *)

Import Provisioning.

Lemma generate_only_if_granted_witness :
  exists header segment principal userId b tenantId g,
    authorization generate_request0 = Some header /\
    nth_error (split_dot (replace_first "Bearer " "" header)) 1 = Some segment /\
    parse0 segment = Returned principal /\
    sub principal = Some userId /\ userId <> "" /\
    json generate_request0 = Returned b /\
    body_tenant_id b = Some tenantId /\ tenantId <> "" /\
    tenant_users db0 !! (tenantId, userId) = Some g /\
    @jwt_decode ReferenceJws.reference token1 =
      Returned (Some (signed_payload
                        {| tenant_id := tenantId; user_id := userId;
                           email := or_default (auth_email principal) placeholder_email |}
                        T0)).
Proof.
  apply (@generate_only_if_granted ReferenceJws.reference parse0 env0 db0 T0
           generate_request0 token1 ("http://localhost:3000?token=" +:+ token1)).
  vm_compute. reflexivity.
Defined.

Lemma generate_access_before_secret_witness :
  @POST_generate ReferenceJws.reference parse0 env_unconfigured
    (delete_tenant_user db0 "t1" "u1") T0 generate_request0 =
    ([console_error "Access check failed:" "PGRST116"],
     NextResponse_json (ErrorBody "Access denied") 403) /\
  @POST_generate ReferenceJws.reference parse0 env_unconfigured db0 T0 generate_request0 =
    ([console_error "SSO generation error:" "SSO_SECRET not configured"],
     NextResponse_json
       (ErrorDetailsBody "Failed to generate token" "SSO_SECRET not configured") 500).
Proof.
  split.
  - exact (@generate_access_before_secret ReferenceJws.reference parse0 env_unconfigured
             (delete_tenant_user db0 "t1" "u1") T0 generate_request0
             "Bearer header.payload.signature" "payload" principal0 "u1" generate_body0 "t1"
             eq_refl eq_refl ltac:(discriminate) eq_refl eq_refl ltac:(discriminate)
             eq_refl eq_refl ltac:(discriminate) eq_refl).
  - exact (@generate_access_before_secret ReferenceJws.reference parse0 env_unconfigured
             db0 T0 generate_request0
             "Bearer header.payload.signature" "payload" principal0 "u1" generate_body0 "t1"
             eq_refl eq_refl ltac:(discriminate) eq_refl eq_refl ltac:(discriminate)
             eq_refl eq_refl ltac:(discriminate) eq_refl eq_refl).
Defined.

Lemma generate_then_validate_witness :
  exists header segment principal userId b tenantId g,
    authorization generate_request0 = Some header /\
    nth_error (split_dot (replace_first "Bearer " "" header)) 1 = Some segment /\
    parse0 segment = Returned principal /\
    sub principal = Some userId /\
    json generate_request0 = Returned b /\ body_tenant_id b = Some tenantId /\
    tenant_users db0 !! (tenantId, userId) = Some g /\
    snd (@POST_validate ReferenceJws.reference env0 db0 soon (token_request token1)) =
      match tenants db0 !! tenantId with
      | None => NextResponse_json (ErrorBody "Tenant not found") 404
      | Some tn =>
          match status tn with
          | active =>
              NextResponse_json
                (ValidatedBody tenantId userId
                   (or_default (auth_email principal) placeholder_email)
                   (role g) (plan tn)) 200
          | _ => NextResponse_json (ErrorBody ("Tenant is " +:+ status_text (status tn))) 403
          end
      end.
Proof.
  apply (@generate_then_validate ReferenceJws.reference parse0 env0 db0 T0 soon
           generate_request0 (token_request token1) token1
           ("http://localhost:3000?token=" +:+ token1)
           {| body_token := Some token1; body_tenant_id := None |});
    vm_compute; reflexivity.
Defined.

Lemma POST_validate_misconfigured_witness :
  @POST_validate ReferenceJws.reference env_unconfigured db0 soon (token_request token0) =
    ([console_error "SSO validation error:" "SSO_SECRET not configured"],
     NextResponse_json (ErrorBody "Validation failed") 500).
Proof.
  exact (proj1 (@POST_validate_misconfigured ReferenceJws.reference env_unconfigured db0 soon
                  (token_request token0) body0 token0
                  eq_refl eq_refl ltac:(discriminate)) eq_refl).
Defined.

Lemma isTokenExpired_monotone_witness :
  @isTokenExpired _ ReferenceJws.reference_view (late + 1000) token0 = true.
Proof.
  apply (@isTokenExpired_monotone _ ReferenceJws.reference_view late (late + 1000) token0).
  - vm_compute. discriminate.
  - vm_compute. reflexivity.
Defined.

Lemma minted_token_expiration_witness :
  exists date,
    @getTokenExpiration _ ReferenceJws.reference_view token0 = Some (new_Date date) /\
    date = (T0 / 1000 + 900) * 1000 /\
    T0 + 899000 < date <= T0 + 900000 /\
    (date <= 8640000000000000 -> new_Date date = Date date).
Proof.
  apply (@minted_token_expiration _ ReferenceJws.reference_view claims0 "s3cret" T0).
  - discriminate.
  - vm_compute. discriminate.
Defined.

Lemma isTokenExpired_matches_validate_witness :
  @validateSSOToken ReferenceJws.reference env0 late token0 =
    if @isTokenExpired _ ReferenceJws.reference_view late token0
    then ([console_log "SSO token expired"], Returned None)
    else ([], Returned (Some (signed_payload claims0 T0))).
Proof.
  apply (@isTokenExpired_matches_validate _ ReferenceJws.reference_view env0 T0 late claims0).
  - reflexivity.
  - vm_compute. discriminate.
Defined.

Lemma by_subdomain_only_active_witness :
  exists s t,
    search_subdomain lookup_acme = Some s /\ s <> "" /\
    tenants db0 !! "t1" = Some t /\ subdomain t = s /\ status t = active /\
    (truthy (Some "internal") = true -> x_api_key lookup_acme = Some "internal").
Proof.
  apply (by_subdomain_only_active env0 (Some "internal") db0 lookup_acme "t1").
  vm_compute. reflexivity.
Defined.

Lemma subdomains_unique_db0 : subdomains_unique db0.
Proof.
  intros i j ti tj Hi Hj _. unfold db0 in *. cbn [tenants] in *.
  apply lookup_singleton_Some in Hi as [<- _].
  by apply lookup_singleton_Some in Hj as [<- _].
Qed.

Lemma by_subdomain_finds_active_witness :
  GET_by_subdomain env0 (Some "internal") db0 lookup_acme =
    ([], {| lookup_status := 200; lookup_body := LookupTenant "t1" |}).
Proof.
  apply (by_subdomain_finds_active env0 (Some "internal") db0 lookup_acme "acme" "t1" tenant0);
    try reflexivity; try discriminate.
  exact subdomains_unique_db0.
Defined.

Lemma by_subdomain_hides_inactive_witness :
  GET_by_subdomain env0 (Some "internal") (update_tenant_status db0 "t1" suspended)
    lookup_acme =
    ([], {| lookup_status := 404; lookup_body := LookupError "Tenant not found" |}) /\
  GET_by_subdomain env0 (Some "internal") (with_tenants db0 ∅) lookup_acme =
    ([], {| lookup_status := 404; lookup_body := LookupError "Tenant not found" |}).
Proof.
  split.
  - apply (by_subdomain_hides_inactive env0 (Some "internal")
             (update_tenant_status db0 "t1" suspended) lookup_acme "acme");
      try reflexivity; try discriminate.
    intros id t Ht _. unfold update_tenant_status, db0 in Ht. cbn [tenants] in Ht.
    apply lookup_alter_Some in Ht as [(_ & t' & _ & ->)|[Hne Ht]].
    + discriminate.
    + apply lookup_singleton_Some in Ht as [? _]. contradiction.
  - apply (by_subdomain_hides_inactive env0 (Some "internal")
             (with_tenants db0 ∅) lookup_acme "acme");
      try reflexivity; discriminate.
Defined.

Lemma by_subdomain_api_key_gate_witness :
  GET_by_subdomain env0 (Some "internal") db0
    {| x_api_key := Some "guess"; search_subdomain := Some "acme" |} =
    ([], {| lookup_status := 401; lookup_body := LookupError "Unauthorized" |}) /\
  GET_by_subdomain env0 None db0
    {| x_api_key := None; search_subdomain := Some "acme" |} =
  GET_by_subdomain env0 None db0 lookup_acme.
Proof.
  split.
  - apply (by_subdomain_api_key_gate env0 (Some "internal") db0
             {| x_api_key := Some "guess"; search_subdomain := Some "acme" |}).
    discriminate.
  - exact (by_subdomain_api_key_gate env0 None db0 lookup_acme None).
Defined.

Lemma generate_subdomain_fixpoint_witness :
  generate_subdomain "blue-sky-co" = "blue-sky-co".
Proof. apply generate_subdomain_fixpoint. reflexivity. Defined.

Lemma generate_subdomain_empty_witness :
  generate_subdomain "?!" = "" /\ generate_subdomain "Blue Sky & Co." <> "".
Proof.
  split.
  - apply (proj2 (generate_subdomain_empty "?!" eq_refl)). reflexivity.
  - intros E. apply (proj1 (generate_subdomain_empty "Blue Sky & Co." eq_refl)) in E.
    discriminate.
Defined.


(** The concrete store satisfies the schema, and "blue-sky-co" is free. *)
Lemma grants_reference_db0 : grants_reference_tenants db0.
Proof.
  intros t u g Hg. unfold db0 in *. cbn [tenants tenant_users] in *.
  apply lookup_singleton_Some in Hg as [[= <- <-] _].
  rewrite lookup_singleton_eq. by eexists.
Qed.

Lemma blue_sky_free :
  forall i t, tenants db0 !! i = Some t ->
    subdomain t <> or_default (body_subdomain create_body0)
                     (generate_subdomain "Blue Sky & Co.").
Proof.
  intros i t Hi. unfold db0 in Hi. cbn [tenants] in Hi.
  apply lookup_singleton_Some in Hi as [_ <-]. discriminate.
Qed.

Lemma create_provisions_witness :
  @POST_create ReferenceJws.reference parse0 init_ok env0 "t2" db0 T0 create_request0 =
    ([console_log "Initialized data for tenant: t2";
      console_log "Created tenant: t2 (Blue Sky & Co.) for user: u1"],
     respond_create
       (CreateCreated "t2" tenant2 ("https://cloud.ycode.app?token=" +:+ token2)) 201,
     db2).
Proof.
  exact (@create_provisions ReferenceJws.reference parse0 init_ok env0 "t2" db0 T0
           create_request0 "Bearer header.payload.signature" "payload" "u1"
           "Blue Sky & Co." principal0 create_body0
           eq_refl eq_refl ltac:(discriminate) eq_refl eq_refl ltac:(discriminate)
           eq_refl eq_refl eq_refl ltac:(discriminate)
           blue_sky_free eq_refl grants_reference_db0
           [console_log "Initialized data for tenant: t2"] eq_refl eq_refl eq_refl).
Defined.

Lemma create_then_redeem_witness :
  @POST_validate ReferenceJws.reference env0
    (@POST_create ReferenceJws.reference parse0 init_ok env0 "t2" db0 T0 create_request0).2
    soon (token_request token2) =
    ([], NextResponse_json (ValidatedBody "t2" "u1" "user@ycode.app" owner free) 200).
Proof.
  exact (@create_then_redeem ReferenceJws.reference parse0 init_ok env0 "t2" db0 T0
           create_request0 "Bearer header.payload.signature" "payload" "u1"
           "Blue Sky & Co." principal0 create_body0
           eq_refl eq_refl ltac:(discriminate) eq_refl eq_refl ltac:(discriminate)
           eq_refl eq_refl eq_refl ltac:(discriminate)
           blue_sky_free eq_refl grants_reference_db0
           [console_log "Initialized data for tenant: t2"] soon (token_request token2)
           {| body_token := Some token2; body_tenant_id := None |}
           eq_refl eq_refl eq_refl eq_refl eq_refl eq_refl).
Defined.

Lemma create_rollback_witness :
  @POST_create ReferenceJws.reference parse0 init_fails env0 "t2" db0 T0 create_request0 =
    ([console_error "Failed to create default page:" "42501";
      console_error "Failed to initialize tenant data:" "42501";
      console_error "Failed to initialize tenant data:" "42501"],
     respond_create (CreateError "Failed to initialize project data") 500,
     db0).
Proof.
  exact (@create_rollback ReferenceJws.reference parse0 init_fails env0 "t2" db0 T0
           create_request0 "Bearer header.payload.signature" "payload" "u1"
           "Blue Sky & Co." principal0 create_body0
           eq_refl eq_refl ltac:(discriminate) eq_refl eq_refl ltac:(discriminate)
           eq_refl eq_refl eq_refl ltac:(discriminate)
           blue_sky_free eq_refl grants_reference_db0
           [console_error "Failed to create default page:" "42501";
            console_error "Failed to initialize tenant data:" "42501"]
           (Error "42501") eq_refl eq_refl).
Defined.

Lemma create_without_secret_witness :
  @POST_create ReferenceJws.reference parse0 init_ok env_unconfigured "t2" db0 T0
    create_request0 =
    ([console_log "Initialized data for tenant: t2";
      console_error "Project creation error:" "SSO_SECRET not configured"],
     respond_create (CreateError "Internal server error") 500,
     db2).
Proof.
  exact (proj1 (@create_without_secret ReferenceJws.reference parse0 init_ok
           env_unconfigured "t2" db0 T0
           create_request0 "Bearer header.payload.signature" "payload" "u1"
           "Blue Sky & Co." principal0 create_body0
           eq_refl eq_refl ltac:(discriminate) eq_refl eq_refl ltac:(discriminate)
           eq_refl eq_refl eq_refl ltac:(discriminate)
           blue_sky_free eq_refl grants_reference_db0
           [console_log "Initialized data for tenant: t2"] eq_refl eq_refl eq_refl)).
Defined.

(** C10 on [generate_request0] and on [create_request0], whose principal
    has no email claim. *)
Lemma mint_placeholder_email_witness :
  (exists token url,
      @POST_generate ReferenceJws.reference parse0 env0 db0 T0 generate_request0 =
        ([], NextResponse_json (TokenBody token url) 200) /\
      snd (@POST_validate ReferenceJws.reference env0 db0 soon (token_request token)) =
        NextResponse_json (ValidatedBody "t1" "u1" "user@ycode.app" owner pro) 200) /\
  (exists token row,
      (@POST_create ReferenceJws.reference parse0 init_ok env0 "t2" db0 T0
         create_request0).1.2 =
        respond_create
          (CreateCreated "t2" row ("https://cloud.ycode.app?token=" +:+ token)) 201 /\
      snd (@POST_validate ReferenceJws.reference env0 db2 soon (token_request token)) =
        NextResponse_json (ValidatedBody "t2" "u1" "user@ycode.app" owner free) 200).
Proof.
  destruct (@mint_placeholder_email ReferenceJws.reference parse0 init_ok env0 T0
              "Bearer header.payload.signature" "payload" principal0 "u1"
              eq_refl ltac:(discriminate) eq_refl eq_refl ltac:(discriminate)
              eq_refl eq_refl eq_refl)
    as [Hgenerate Hcreate].
  split.
  - destruct (Hgenerate db0 generate_request0 generate_body0 "t1" grant0
                eq_refl eq_refl eq_refl ltac:(discriminate) eq_refl)
      as (token & url & Hmint & _ & _).
    exists token, url. split; [exact Hmint|].
    vm_compute in Hmint. injection Hmint as <- _. vm_compute. reflexivity.
  - destruct (Hcreate "t2" db0 create_request0 create_body0 "Blue Sky & Co."
                [console_log "Initialized data for tenant: t2"]
                eq_refl eq_refl eq_refl ltac:(discriminate) (or_intror eq_refl)
                blue_sky_free eq_refl grants_reference_db0 eq_refl)
      as (token & row & Hresp & _ & _).
    exists token, row. split; [exact Hresp|].
    vm_compute in Hresp. simplify_eq. vm_compute. reflexivity.
Defined.

Lemma create_conflict_witness :
  @POST_create ReferenceJws.reference parse0 init_ok env0 "t2" db0 T0
    {| create_authorization := Some "Bearer header.payload.signature";
       create_json := Returned {| body_name := Some "ACME"; body_subdomain := None |} |} =
    ([], respond_create (CreateError "Subdomain already taken") 409, db0).
Proof.
  exact (@create_conflict ReferenceJws.reference parse0 init_ok env0 "t2" db0 T0
           {| create_authorization := Some "Bearer header.payload.signature";
              create_json := Returned {| body_name := Some "ACME"; body_subdomain := None |} |}
           "Bearer header.payload.signature" "payload" principal0 "u1"
           {| body_name := Some "ACME"; body_subdomain := None |} "ACME" "t1" tenant0
           eq_refl eq_refl ltac:(discriminate) eq_refl eq_refl ltac:(discriminate)
           eq_refl eq_refl eq_refl ltac:(discriminate) eq_refl
           subdomains_unique_db0 eq_refl eq_refl).
Defined.

Lemma getTenantUsage_storage_witness :
  storage_mb (getTenantUsage (Some 1) (Some 2) (Some [Some 500000; None; Some 24287])) = 0.
Proof.
  apply (getTenantUsage_storage (Some 1) (Some 2) [Some 500000; None; Some 24287]
           ltac:(repeat constructor; cbn; lia));
    vm_compute; reflexivity.
Defined.

